(** * NXP PCF85263 / PCF85363 real-time-clock drivers

    A shallow embedding of [rtc-pcf85263.c] and [rtc-pcf85363.c].

    C integers are carried as [Z] with the conversions written out
    ([u8], [u32], [s32]).  The register-map transport ([regmap_*]) is an
    external collaborator: the driver's calls to it are recorded, in
    order, in a trace, their return codes are taken from a script held in
    the state, and their effect on the peripheral is given on a register
    file [Z -> Z]. *)

From Stdlib Require Import ZArith List Lia Bool String.
Import ListNotations.

Local Open Scope Z_scope.

(** ** Machine integers *)

Definition u8 (x : Z) : Z := x mod 256.
Definition u32 (x : Z) : Z := x mod 4294967296.
Definition s32 (x : Z) : Z :=
  let y := u32 x in if y <? 2147483648 then y else y - 4294967296.

Definition BIT (n : Z) : Z := Z.shiftl 1 n.

(** ** <linux/bcd.h> *)

(** Modelled from the spec: the body of the kernel helper [bcd2bin], which
    is not part of the two driver files.  A byte [b] decodes to
    [10 * ((b >> 4) & 0xF) + (b & 0xF)].  The helper takes an
    [unsigned char], returns [unsigned] and has no error result. *)
Definition bcd2bin (val : Z) : Z :=
  let b := u8 val in
  u32 (Z.land b 15 + Z.shiftr b 4 * 10).

(** Modelled from the spec: the body of the kernel helper [bin2bcd], which
    is not part of the two driver files.  The byte is rebuilt from the
    decimal value [v] as [((v / 10) << 4)] plus [v % 10].  The helper takes
    [unsigned] and returns [unsigned char]. *)
Definition bin2bcd (val : Z) : Z :=
  let v := u32 val in
  u8 (u32 (u32 (Z.shiftl (v / 10) 4) + v mod 10)).

(** ** Register map (the [#define]s shared by both files) *)

Module Reg.
Definition DT_100THS : Z := 0x00.
Definition DT_SECS : Z := 0x01.
Definition DT_MINUTES : Z := 0x02.
Definition DT_HOURS : Z := 0x03.
Definition DT_DAYS : Z := 0x04.
Definition DT_WEEKDAYS : Z := 0x05.
Definition DT_MONTHS : Z := 0x06.
Definition DT_YEARS : Z := 0x07.

Definition DT_SECOND_ALM1 : Z := 0x08.
Definition DT_MINUTE_ALM1 : Z := 0x09.
Definition DT_HOUR_ALM1 : Z := 0x0a.
Definition DT_DAY_ALM1 : Z := 0x0b.
Definition DT_MONTH_ALM1 : Z := 0x0c.
Definition DT_ALARM_EN : Z := 0x10.

Definition CTRL_INTA_EN : Z := 0x29.
Definition CTRL_FLAGS : Z := 0x2b.
Definition CTRL_STOP_EN : Z := 0x2e.
Definition CTRL_RESETS : Z := 0x2f.
Definition CTRL_RAM : Z := 0x40.

Definition ALRM_SEC_A1E : Z := BIT 0.
Definition ALRM_MIN_A1E : Z := BIT 1.
Definition ALRM_HR_A1E : Z := BIT 2.
Definition ALRM_DAY_A1E : Z := BIT 3.
Definition ALRM_MON_A1E : Z := BIT 4.

Definition INT_A1IE : Z := BIT 4.
Definition FLAGS_A1F : Z := BIT 5.

Definition STOP_EN_STOP : Z := BIT 0.
Definition RESET_CPR : Z := 0xa4.
End Reg.

(** ** struct rtc_time

    The seven fields the drivers touch; [tm_yday] and [tm_isdst] are never
    read or written by either file. *)

Record rtc_time : Type := mk_rtc_time {
  tm_sec : Z;
  tm_min : Z;
  tm_hour : Z;
  tm_mday : Z;
  tm_mon : Z;
  tm_year : Z;
  tm_wday : Z
}.

(** ** C arrays as lists *)

Fixpoint array_set_nat (i : nat) (v : Z) (a : list Z) : list Z :=
  match a, i with
  | [], _ => []
  | _ :: t, O => u8 v :: t
  | h :: t, S j => h :: array_set_nat j v t
  end.

(** [a[i] = v] on an [unsigned char] array: the stored value is truncated. *)
Definition array_set (i : Z) (v : Z) (a : list Z) : list Z :=
  array_set_nat (Z.to_nat i) v a.

Definition array_get (a : list Z) (i : Z) : Z := nth (Z.to_nat i) a 0.

(** An automatic array that is declared without initialiser: cell [i]
    holds the indeterminate value [uninit i]. *)
Definition auto_array (uninit : nat -> Z) (n : nat) : list Z :=
  map uninit (seq 0 n).

(** ** The outside world

    Calls the drivers make to their collaborators, in the order made. *)

Inductive call : Type :=
| Printk (msg : string)
| Dev_err (code : Z)
| Regmap_bulk_read (reg : Z) (len : Z)
| Regmap_bulk_write (reg : Z) (data : list Z)
| Regmap_read (reg : Z)
| Regmap_write (reg : Z) (val : Z)
| Regmap_update_bits (reg : Z) (mask : Z) (val : Z)
| Rtc_update_irq (num : Z) (events : Z).

Record world : Type := mk_world {
  regs : Z -> Z;       (* the peripheral's register file *)
  rets : list Z;       (* return codes of the coming regmap calls; none left: 0 *)
  trace : list call    (* calls made so far, oldest first *)
}.

(** A small state monad over [world]. *)

Definition M (A : Type) : Type := world -> A * world.

Definition ret {A : Type} (a : A) : M A := fun w => (a, w).

Definition bind {A B : Type} (m : M A) (k : A -> M B) : M B :=
  fun w => let (a, w') := m w in k a w'.

Declare Scope drv_scope.
Delimit Scope drv_scope with drv.
Notation "x <- m ;; k" := (bind m (fun x => k))
  (at level 61, m at next level, right associativity) : drv_scope.
Notation "m ;; k" := (bind m (fun _ => k))
  (at level 61, right associativity) : drv_scope.
Local Open Scope drv_scope.

Definition emit (c : call) : M unit :=
  fun w => (tt, mk_world (regs w) (rets w) (trace w ++ [c])).

Definition next_ret : M Z :=
  fun w => match rets w with
           | [] => (0, w)
           | r :: rs => (r, mk_world (regs w) rs (trace w))
           end.

Definition get_regs : M (Z -> Z) := fun w => (regs w, w).

Definition put_regs (f : Z -> Z) : M unit :=
  fun w => (tt, mk_world f (rets w) (trace w)).

(** Register file: 8-bit values, consecutive addresses for bulk access. *)

Definition upd (r v : Z) (f : Z -> Z) : Z -> Z :=
  fun x => if x =? r then u8 v else f x.

Fixpoint store (reg : Z) (data : list Z) (f : Z -> Z) : Z -> Z :=
  match data with
  | [] => f
  | b :: bs => store (reg + 1) bs (upd reg b f)
  end.

Fixpoint fetch (reg : Z) (n : nat) (f : Z -> Z) : list Z :=
  match n with
  | O => []
  | S m => u8 (f reg) :: fetch (reg + 1) m f
  end.

Definition nonzero (x : Z) : bool := negb (x =? 0).

(** The regmap entry points used by the drivers.  Each logs itself, takes
    its return code from the script and, on success only, acts on the
    register file. *)

Definition regmap_bulk_read (reg len : Z) : M (Z * list Z) :=
  emit (Regmap_bulk_read reg len) ;;
  r <- next_ret ;;
  if nonzero r then ret (r, [])
  else f <- get_regs ;; ret (r, fetch reg (Z.to_nat len) f).

Definition regmap_bulk_write (reg : Z) (data : list Z) : M Z :=
  emit (Regmap_bulk_write reg data) ;;
  r <- next_ret ;;
  if nonzero r then ret r
  else f <- get_regs ;; put_regs (store reg data f) ;; ret r.

Definition regmap_read (reg : Z) : M (Z * Z) :=
  emit (Regmap_read reg) ;;
  r <- next_ret ;;
  if nonzero r then ret (r, 0)
  else f <- get_regs ;; ret (r, u8 (f reg)).

Definition regmap_write (reg val : Z) : M Z :=
  emit (Regmap_write reg val) ;;
  r <- next_ret ;;
  if nonzero r then ret r
  else f <- get_regs ;; put_regs (upd reg val f) ;; ret r.

(** [regmap_update_bits]: read-modify-write, [new = (old & ~mask) | (val & mask)]. *)
Definition regmap_update_bits (reg mask val : Z) : M Z :=
  emit (Regmap_update_bits reg mask val) ;;
  r <- next_ret ;;
  if nonzero r then ret r
  else
    f <- get_regs ;;
    let orig := u8 (f reg) in
    let tmp := Z.lor (Z.land orig (Z.lnot mask)) (Z.land val mask) in
    put_regs (upd reg tmp f) ;; ret r.

Definition printk (msg : string) : M unit := emit (Printk msg).
Definition dev_err (code : Z) : M unit := emit (Dev_err code).
Definition rtc_update_irq (num events : Z) : M unit := emit (Rtc_update_irq num events).

(** ** Registration with the host frameworks

    The entry points of a driver file, and the calls [probe] makes to the
    I2C and RTC cores.  A function of the file can be invoked by the host
    only when [probe] has handed it over: as a member of the
    [rtc_class_ops] it registers, as an interrupt handler, or as an nvmem
    callback. *)

Inductive driver_fn : Type :=
| Fn_rtc_read_time
| Fn_rtc_set_time
| Fn_rtc_read_alarm
| Fn_rtc_set_alarm
| Fn_rtc_alarm_irq_enable
| Fn_rtc_handle_irq
| Fn_nvram_read
| Fn_nvram_write.

Definition driver_fn_eqb (a b : driver_fn) : bool :=
  match a, b with
  | Fn_rtc_read_time, Fn_rtc_read_time
  | Fn_rtc_set_time, Fn_rtc_set_time
  | Fn_rtc_read_alarm, Fn_rtc_read_alarm
  | Fn_rtc_set_alarm, Fn_rtc_set_alarm
  | Fn_rtc_alarm_irq_enable, Fn_rtc_alarm_irq_enable
  | Fn_rtc_handle_irq, Fn_rtc_handle_irq
  | Fn_nvram_read, Fn_nvram_read
  | Fn_nvram_write, Fn_nvram_write => true
  | _, _ => false
  end.

Record rtc_class_ops : Type := mk_rtc_class_ops {
  read_time : option driver_fn;
  set_time : option driver_fn;
  read_alarm : option driver_fn;
  set_alarm : option driver_fn;
  alarm_irq_enable : option driver_fn
}.

Inductive probe_call : Type :=
| I2c_check_functionality
| Devm_kzalloc
| Devm_regmap_init_i2c
| I2c_set_clientdata
| Devm_rtc_device_register (name : string) (ops : rtc_class_ops)
| Devm_request_threaded_irq (handler : driver_fn)
| Rtc_nvmem_register (reg_read reg_write : driver_fn).

(** What the cores answer to [probe]. *)
Record probe_env : Type := mk_probe_env {
  functionality : bool;   (* i2c_check_functionality *)
  kzalloc_ok : bool;      (* devm_kzalloc returned non-NULL *)
  regmap_err : Z;         (* PTR_ERR of devm_regmap_init_i2c, 0 when valid *)
  register_err : Z        (* PTR_ERR_OR_ZERO of devm_rtc_device_register *)
}.

Definition ENOMEM : Z := 12.
Definition ENODEV : Z := 19.

Definition ops_members (ops : rtc_class_ops) : list driver_fn :=
  let opt o := match o with Some f => [f] | None => [] end in
  opt (read_time ops) ++ opt (set_time ops) ++ opt (read_alarm ops)
  ++ opt (set_alarm ops) ++ opt (alarm_irq_enable ops).

(** The functions a framework call hands over to the host. *)
Definition handed_over (c : probe_call) : list driver_fn :=
  match c with
  | Devm_rtc_device_register _ ops => ops_members ops
  | Devm_request_threaded_irq h => [h]
  | Rtc_nvmem_register r w => [r; w]
  | _ => []
  end.

Definition reachable (calls : list probe_call) (f : driver_fn) : bool :=
  existsb (driver_fn_eqb f) (flat_map handed_over calls).

(** ** rtc-pcf85363.c *)

Module PCF85363.
Import Reg.

Definition NVRAM_SIZE : Z := 0x40.

(** Lines 136-147 of [pcf85363_rtc_read_time]: the register buffer
    [buf[DT_YEARS + 1]] turned into the fields of [*tm], statement by
    statement. *)
Definition decode_time (buf : list Z) : rtc_time :=
  let year := s32 (bcd2bin (array_get buf DT_YEARS)) in
  (* adjust for 1900 base of rtc_time *)
  let year := s32 (year + 100) in
  let wday := Z.land (array_get buf DT_WEEKDAYS) 7 in
  let buf := array_set DT_SECS (Z.land (array_get buf DT_SECS) 0x7F) buf in
  let sec := s32 (bcd2bin (array_get buf DT_SECS)) in
  let buf := array_set DT_MINUTES (Z.land (array_get buf DT_MINUTES) 0x7F) buf in
  let min := s32 (bcd2bin (array_get buf DT_MINUTES)) in
  let hour := s32 (bcd2bin (array_get buf DT_HOURS)) in
  let mday := s32 (bcd2bin (array_get buf DT_DAYS)) in
  let mon := s32 (u32 (bcd2bin (array_get buf DT_MONTHS) - 1)) in
  mk_rtc_time sec min hour mday mon year wday.

Definition pcf85363_rtc_read_time (tm : rtc_time) : M (Z * rtc_time) :=
  printk "read time  pcf85363 function has been called.\n" ;;
  let len := DT_YEARS + 1 in
  (* read the RTC date and time registers all at once *)
  p <- regmap_bulk_read DT_100THS len ;;
  let '(r, buf) := p in
  if nonzero r then dev_err r ;; ret (r, tm)
  else ret (0, decode_time buf).

(** Lines 163-170 of [pcf85363_rtc_set_time]: the assignments through
    [buf = &tmp[2]]. *)
Definition fill_time (tm : rtc_time) (tmp : list Z) : list Z :=
  let buf_set i v a := array_set (2 + i) v a in
  let tmp := buf_set DT_100THS 0 tmp in
  let tmp := buf_set DT_SECS (bin2bcd (tm_sec tm)) tmp in
  let tmp := buf_set DT_MINUTES (bin2bcd (tm_min tm)) tmp in
  let tmp := buf_set DT_HOURS (bin2bcd (tm_hour tm)) tmp in
  let tmp := buf_set DT_DAYS (bin2bcd (tm_mday tm)) tmp in
  let tmp := buf_set DT_WEEKDAYS (tm_wday tm) tmp in
  let tmp := buf_set DT_MONTHS (bin2bcd (s32 (tm_mon tm + 1))) tmp in
  let tmp := buf_set DT_YEARS (bin2bcd (Z.rem (tm_year tm) 100)) tmp in
  tmp.

(** [uninit] gives the indeterminate initial contents of [tmp[11]]. *)
Definition pcf85363_rtc_set_time (uninit : nat -> Z) (tm : rtc_time) : M Z :=
  printk "set time pcf85363 function has been called.\n" ;;
  let sizeof_tmp := 11 in
  let tmp := auto_array uninit (Z.to_nat sizeof_tmp) in
  let tmp := array_set 0 STOP_EN_STOP tmp in
  let tmp := array_set 1 RESET_CPR tmp in
  let tmp := fill_time tm tmp in
  let buf := skipn 2 tmp in
  r <- regmap_bulk_write CTRL_STOP_EN (firstn 2 tmp) ;;
  if nonzero r then ret r else
  r <- regmap_bulk_write DT_100THS (firstn (Z.to_nat (sizeof_tmp - 2)) buf) ;;
  if nonzero r then ret r else
  regmap_write CTRL_STOP_EN 0.

(** [alrm] is the alarm time together with its [enabled] member. *)
Definition pcf85363_rtc_read_alarm (alrm : rtc_time * Z) : M (Z * (rtc_time * Z)) :=
  printk "rtc read alarm pcf85363 function has been called.\n" ;;
  p <- regmap_bulk_read DT_SECOND_ALM1 (DT_MONTH_ALM1 - DT_SECOND_ALM1 + 1) ;;
  let '(r, buf) := p in
  if nonzero r then ret (r, alrm) else
  let tm := mk_rtc_time (s32 (bcd2bin (array_get buf 0)))
                        (s32 (bcd2bin (array_get buf 1)))
                        (s32 (bcd2bin (array_get buf 2)))
                        (s32 (bcd2bin (array_get buf 3)))
                        (s32 (u32 (bcd2bin (array_get buf 4) - 1)))
                        (tm_year (fst alrm)) (tm_wday (fst alrm)) in
  p <- regmap_read CTRL_INTA_EN ;;
  let '(r, val) := p in
  if nonzero r then ret (r, (tm, snd alrm)) else
  ret (0, (tm, if nonzero (Z.land val INT_A1IE) then 1 else 0)).

Definition _pcf85363_rtc_alarm_irq_enable (enabled : Z) : M Z :=
  printk " _ alarm enable pcf85363 function has been called.\n" ;;
  let alarm_flags :=
    Z.lor (Z.lor (Z.lor (Z.lor ALRM_SEC_A1E ALRM_MIN_A1E) ALRM_HR_A1E)
                 ALRM_DAY_A1E) ALRM_MON_A1E in
  r <- regmap_update_bits DT_ALARM_EN alarm_flags
         (if nonzero enabled then alarm_flags else 0) ;;
  if nonzero r then ret r else
  r <- regmap_update_bits CTRL_INTA_EN INT_A1IE
         (if nonzero enabled then INT_A1IE else 0) ;;
  if nonzero r || nonzero enabled then ret r else
  (* clear current flags *)
  regmap_update_bits CTRL_FLAGS FLAGS_A1F 0.

Definition pcf85363_rtc_alarm_irq_enable (enabled : Z) : M Z :=
  printk "alarm irq enable  pcf85363 function has been called.\n" ;;
  _pcf85363_rtc_alarm_irq_enable enabled.

Definition pcf85363_rtc_set_alarm (alrm : rtc_time * Z) : M Z :=
  printk "set rtc alarm pcf85363 function has been called.\n" ;;
  let tm := fst alrm in
  let buf := [ bin2bcd (tm_sec tm); bin2bcd (tm_min tm); bin2bcd (tm_hour tm);
               bin2bcd (tm_mday tm); bin2bcd (s32 (tm_mon tm + 1)) ] in
  (* Disable the alarm interrupt before changing the value to avoid
     spurious interrupts *)
  r <- _pcf85363_rtc_alarm_irq_enable 0 ;;
  if nonzero r then ret r else
  r <- regmap_bulk_write DT_SECOND_ALM1 buf ;;
  if nonzero r then ret r else
  _pcf85363_rtc_alarm_irq_enable (snd alrm).

Inductive irqreturn_t : Type := IRQ_NONE | IRQ_HANDLED | IRQ_WAKE_THREAD.

(** <linux/rtc.h> *)
Definition RTC_IRQF : Z := 0x80.
Definition RTC_AF : Z := 0x20.

Definition pcf85363_rtc_handle_irq : M irqreturn_t :=
  printk "irq handle pcf85363 function has been called.\n" ;;
  p <- regmap_read CTRL_FLAGS ;;
  let '(err, flags) := p in
  if nonzero err then ret IRQ_NONE else
  if nonzero (Z.land flags FLAGS_A1F) then
    rtc_update_irq 1 (Z.lor RTC_IRQF RTC_AF) ;;
    _ <- regmap_update_bits CTRL_FLAGS FLAGS_A1F 0 ;;
    ret IRQ_HANDLED
  else ret IRQ_NONE.

(** [val] points at [bytes] bytes: the caller's buffer is the list
    [val], of which [bytes] are transferred. *)
Definition pcf85363_nvram_read (offset : Z) (bytes : Z) : M (Z * list Z) :=
  printk "nvram read pcf85363 function has been called.\n" ;;
  regmap_bulk_read (u32 (CTRL_RAM + offset)) bytes.

Definition pcf85363_nvram_write (offset : Z) (val : list Z) (bytes : Z) : M Z :=
  printk "nvram write pcf85363 function has been called.\n" ;;
  regmap_bulk_write (u32 (CTRL_RAM + offset)) (firstn (Z.to_nat bytes) val).

Definition rtc_ops : rtc_class_ops :=
  {| read_time := Some Fn_rtc_read_time;
     set_time := Some Fn_rtc_set_time;
     read_alarm := None;
     set_alarm := None;
     alarm_irq_enable := None |}.

Definition rtc_ops_alarm : rtc_class_ops :=
  {| read_time := Some Fn_rtc_read_time;
     set_time := Some Fn_rtc_set_time;
     read_alarm := Some Fn_rtc_read_alarm;
     set_alarm := Some Fn_rtc_set_alarm;
     alarm_irq_enable := Some Fn_rtc_alarm_irq_enable |}.

(** Returns the status and the framework calls made, oldest first.  This
    file's [probe] does not create the regmap. *)
Definition pcf85363_probe (env : probe_env) : Z * list probe_call :=
  if negb (functionality env) then (- ENODEV, [I2c_check_functionality]) else
  if negb (kzalloc_ok env) then
    (- ENOMEM, [I2c_check_functionality; Devm_kzalloc]) else
  (register_err env,
   [I2c_check_functionality; Devm_kzalloc; I2c_set_clientdata;
    Devm_rtc_device_register "pcf85363" rtc_ops]).
End PCF85363.

(** ** rtc-pcf85263.c *)

Module PCF85263.
Import Reg.

Definition NVRAM_SIZE : Z := 0x01.

(** Lines 133-144 of [pcf85263_rtc_read_time]. *)
Definition decode_time (buf : list Z) : rtc_time :=
  let year := s32 (bcd2bin (array_get buf DT_YEARS)) in
  (* adjust for 1900 base of rtc_time *)
  let year := s32 (year + 100) in
  let wday := Z.land (array_get buf DT_WEEKDAYS) 7 in
  let buf := array_set DT_SECS (Z.land (array_get buf DT_SECS) 0x7F) buf in
  let sec := s32 (bcd2bin (array_get buf DT_SECS)) in
  let buf := array_set DT_MINUTES (Z.land (array_get buf DT_MINUTES) 0x7F) buf in
  let min := s32 (bcd2bin (array_get buf DT_MINUTES)) in
  let hour := s32 (bcd2bin (array_get buf DT_HOURS)) in
  let mday := s32 (bcd2bin (array_get buf DT_DAYS)) in
  let mon := s32 (u32 (bcd2bin (array_get buf DT_MONTHS) - 1)) in
  mk_rtc_time sec min hour mday mon year wday.

Definition pcf85263_rtc_read_time (tm : rtc_time) : M (Z * rtc_time) :=
  let len := DT_YEARS + 1 in
  (* read the RTC date and time registers all at once *)
  p <- regmap_bulk_read DT_100THS len ;;
  let '(r, buf) := p in
  if nonzero r then dev_err r ;; ret (r, tm)
  else ret (0, decode_time buf).

(** Lines 159-166 of [pcf85263_rtc_set_time]. *)
Definition fill_time (tm : rtc_time) (tmp : list Z) : list Z :=
  let buf_set i v a := array_set (2 + i) v a in
  let tmp := buf_set DT_100THS 0 tmp in
  let tmp := buf_set DT_SECS (bin2bcd (tm_sec tm)) tmp in
  let tmp := buf_set DT_MINUTES (bin2bcd (tm_min tm)) tmp in
  let tmp := buf_set DT_HOURS (bin2bcd (tm_hour tm)) tmp in
  let tmp := buf_set DT_DAYS (bin2bcd (tm_mday tm)) tmp in
  let tmp := buf_set DT_WEEKDAYS (tm_wday tm) tmp in
  let tmp := buf_set DT_MONTHS (bin2bcd (s32 (tm_mon tm + 1))) tmp in
  let tmp := buf_set DT_YEARS (bin2bcd (Z.rem (tm_year tm) 100)) tmp in
  tmp.

Definition pcf85263_rtc_set_time (uninit : nat -> Z) (tm : rtc_time) : M Z :=
  let sizeof_tmp := 11 in
  let tmp := auto_array uninit (Z.to_nat sizeof_tmp) in
  let tmp := array_set 0 STOP_EN_STOP tmp in
  let tmp := array_set 1 RESET_CPR tmp in
  let tmp := fill_time tm tmp in
  let buf := skipn 2 tmp in
  r <- regmap_bulk_write CTRL_STOP_EN (firstn 2 tmp) ;;
  if nonzero r then ret r else
  r <- regmap_bulk_write DT_100THS (firstn (Z.to_nat (sizeof_tmp - 2)) buf) ;;
  if nonzero r then ret r else
  regmap_write CTRL_STOP_EN 0.

Definition rtc_ops : rtc_class_ops :=
  {| read_time := Some Fn_rtc_read_time;
     set_time := Some Fn_rtc_set_time;
     read_alarm := None;
     set_alarm := None;
     alarm_irq_enable := None |}.

Definition pcf85263_probe (env : probe_env) : Z * list probe_call :=
  if negb (functionality env) then (- ENODEV, [I2c_check_functionality]) else
  if negb (kzalloc_ok env) then
    (- ENOMEM, [I2c_check_functionality; Devm_kzalloc]) else
  if nonzero (regmap_err env) then
    (regmap_err env,
     [I2c_check_functionality; Devm_kzalloc; Devm_regmap_init_i2c]) else
  (register_err env,
   [I2c_check_functionality; Devm_kzalloc; Devm_regmap_init_i2c;
    I2c_set_clientdata; Devm_rtc_device_register "pcf85263" rtc_ops]).
End PCF85263.

(** ** Vocabulary of the statements *)

Definition with_year (t : rtc_time) (y : Z) : rtc_time :=
  mk_rtc_time (tm_sec t) (tm_min t) (tm_hour t) (tm_mday t) (tm_mon t) y (tm_wday t).

(** The eight date/time bytes that [set_time] has assigned in [buf] by the
    time it calls the transport: [buf[DT_100THS] .. buf[DT_YEARS]]. *)
Definition time_block (uninit : nat -> Z) (tm : rtc_time) : list Z :=
  firstn 8 (skipn 2 (PCF85363.fill_time tm (auto_array uninit 11))).

(** A byte whose two nibbles are decimal digits. *)
Definition bcd_valid (b : Z) : bool := (b mod 16 <=? 9) && (b / 16 <=? 9).

(** Some BCD field of the buffer, after masking the indicator bit of the
    second and minute registers, has a nibble in 10..15. *)
Definition corrupt_fields (buf : list Z) : bool :=
  negb (bcd_valid (Z.land (array_get buf Reg.DT_SECS) 0x7F)
        && bcd_valid (Z.land (array_get buf Reg.DT_MINUTES) 0x7F)
        && bcd_valid (array_get buf Reg.DT_HOURS)
        && bcd_valid (array_get buf Reg.DT_DAYS)
        && bcd_valid (array_get buf Reg.DT_MONTHS)
        && bcd_valid (array_get buf Reg.DT_YEARS)).

Definition is_regmap (c : call) : bool :=
  match c with
  | Regmap_bulk_read _ _ | Regmap_bulk_write _ _ | Regmap_read _
  | Regmap_write _ _ | Regmap_update_bits _ _ _ => true
  | _ => false
  end.

Definition is_write (c : call) : bool :=
  match c with
  | Regmap_bulk_write _ _ | Regmap_write _ _ | Regmap_update_bits _ _ _ => true
  | _ => false
  end.

(** The register writes of a trace, in order. *)
Definition register_writes (tr : list call) : list call := filter is_write tr.

(** Call [c] writes register [r]. *)
Definition writes_reg (r : Z) (c : call) : bool :=
  match c with
  | Regmap_bulk_write reg data =>
      (reg <=? r) && (r <? reg + Z.of_nat (List.length data))
  | Regmap_write reg _ => r =? reg
  | Regmap_update_bits reg _ _ => r =? reg
  | _ => false
  end.

(** Call [c] samples register [r] for the driver. *)
Definition reads_reg (r : Z) (c : call) : bool :=
  match c with
  | Regmap_bulk_read reg len => (reg <=? r) && (r <? reg + len)
  | Regmap_read reg => r =? reg
  | _ => false
  end.

(** The return code the transport gives to the [i]-th coming call. *)
Definition ret_at (w : world) (i : nat) : Z := nth i (rets w) 0.

(** A world whose register file is [f], with the return codes [rs]
    scripted and nothing logged yet. *)
Definition boot (f : Z -> Z) (rs : list Z) : world := mk_world f rs [].

(** The calls logged between [w] and a later world [w']. *)
Definition calls_since (w w' : world) : list call :=
  skipn (List.length (trace w)) (trace w').

(** The first two register writes of [tr] clear the five alarm-1
    match-enable bits and then the alarm-1 interrupt-enable bit. *)
Definition forces_off_first (tr : list call) : bool :=
  match register_writes tr with
  | Regmap_update_bits r1 m1 v1 :: Regmap_update_bits r2 m2 v2 :: _ =>
      (r1 =? Reg.DT_ALARM_EN) && (m1 =? 0x1f) && (v1 =? 0)
      && (r2 =? Reg.CTRL_INTA_EN) && (m2 =? 0x10) && (v2 =? 0)
  | _ => false
  end.

(** Framework calls through which [probe] hands functions to the host. *)
Definition is_registration (c : probe_call) : bool :=
  match c with
  | Devm_rtc_device_register _ _ | Devm_request_threaded_irq _
  | Rtc_nvmem_register _ _ => true
  | _ => false
  end.

(** 18 December 2023, 09:05:00, in the 0-99 year convention. *)
Definition sample_time : rtc_time := mk_rtc_time 0 5 9 18 12 23 1.

Definition zero_stack : nat -> Z := fun _ => 0.

(** Notifications to the RTC core ([rtc_update_irq]). *)
Definition is_rtc_event (c : call) : bool :=
  match c with Rtc_update_irq _ _ => true | _ => false end.

Definition is_regmap_init (c : probe_call) : bool :=
  match c with Devm_regmap_init_i2c => true | _ => false end.

(** Lines 252-256 of [pcf85363_rtc_set_alarm]: the five match-field bytes
    [buf[0..4]]. *)
Definition alarm_bytes (tm : rtc_time) : list Z :=
  [ bin2bcd (tm_sec tm); bin2bcd (tm_min tm); bin2bcd (tm_hour tm);
    bin2bcd (tm_mday tm); bin2bcd (s32 (tm_mon tm + 1)) ].

(** Lines 198-202 of [pcf85363_rtc_read_alarm]: the five fields assigned
    in [alrm->time], the others kept from [old]. *)
Definition alarm_time_of (buf : list Z) (old : rtc_time) : rtc_time :=
  mk_rtc_time (s32 (bcd2bin (array_get buf 0)))
              (s32 (bcd2bin (array_get buf 1)))
              (s32 (bcd2bin (array_get buf 2)))
              (s32 (bcd2bin (array_get buf 3)))
              (s32 (u32 (bcd2bin (array_get buf 4) - 1)))
              (tm_year old) (tm_wday old).

(** Ten times the high nibble plus the low nibble. *)
Definition digits (x : Z) : Z := 10 * (x / 16) + x mod 16.

(** 18 December 2023, 09:05:00, as the kernel passes it: months from 0,
    years from 1900. *)
Definition rtc_sample : rtc_time := mk_rtc_time 0 5 9 18 11 123 1.



(** ** Proof tools *)

Ltac unfold_bus :=
  unfold regmap_bulk_read, regmap_bulk_write, regmap_read, regmap_write,
         regmap_update_bits, printk, dev_err, rtc_update_irq,
         bind, emit, next_ret, get_regs, put_regs, ret, ret_at;
  cbn [regs rets trace nth tl fst snd].

(** A transport primitive is settled by looking at the head of the script. *)
Ltac by_script w :=
  let r := fresh "r" in
  destruct w as [? [|r ?] ?]; unfold_bus;
  [ reflexivity | destruct (nonzero r); reflexivity ].

(** One statement of a driver function: run it with the equations
    collected in the [bus] rewrite base. *)
Ltac step :=
  repeat (autorewrite with bus; cbn [fst snd regs rets trace app]).

Ltac split_ret w i :=
  let E := fresh "E" in
  destruct (nonzero (ret_at w i)) eqn:E; cbn [negb orb andb].

(** ** Machine-integer and BCD facts *)

Lemma u8_small x : 0 <= x < 256 -> u8 x = x.
Proof. intros H. unfold u8. apply Z.mod_small. exact H. Qed.

Lemma u32_small x : 0 <= x < 4294967296 -> u32 x = x.
Proof. intros H. unfold u32. apply Z.mod_small. exact H. Qed.

Lemma s32_small x : 0 <= x < 2147483648 -> s32 x = x.
Proof.
  intros H. unfold s32. rewrite u32_small by lia.
  destruct (Z.ltb_spec x 2147483648); lia.
Qed.

(** [x - 1] computed in [unsigned] and stored in an [int]: zero gives -1. *)
Lemma s32_pred x : 0 <= x < 2147483648 -> s32 (u32 (x - 1)) = x - 1.
Proof.
  intros Hx. destruct (Z.eq_dec x 0) as [->|Hne]; [reflexivity|].
  rewrite u32_small by lia. apply s32_small. lia.
Qed.

Lemma u8_range x : 0 <= u8 x < 256.
Proof. unfold u8. apply Z.mod_pos_bound. lia. Qed.

Lemma u8_idem x : u8 (u8 x) = u8 x.
Proof. apply u8_small, u8_range. Qed.

Lemma land_15 b : Z.land b 15 = b mod 16.
Proof. change 15 with (Z.ones 4). rewrite Z.land_ones by lia. reflexivity. Qed.

Lemma land_127 b : Z.land b 127 = b mod 128.
Proof. change 127 with (Z.ones 7). rewrite Z.land_ones by lia. reflexivity. Qed.

Lemma land_7 b : Z.land b 7 = b mod 8.
Proof. change 7 with (Z.ones 3). rewrite Z.land_ones by lia. reflexivity. Qed.

Lemma u8_mask b : u8 (Z.land (u8 b) 0x7F) = u8 b mod 128.
Proof.
  rewrite land_127. pose proof (u8_range b).
  pose proof (Z.mod_pos_bound (u8 b) 128 ltac:(lia)).
  apply u8_small. lia.
Qed.

Lemma digits_range x n :
  0 < n -> 0 <= x < n * n -> 0 <= x / n < n /\ 0 <= x mod n < n.
Proof.
  intros Hn Hx. split.
  - split; [apply Z.div_pos; lia | apply Z.div_lt_upper_bound; lia].
  - apply Z.mod_pos_bound. exact Hn.
Qed.

(** [bcd2bin] reads the high nibble as tens and the low nibble as units,
    whatever the nibbles are. *)
Lemma bcd2bin_digits b : bcd2bin b = 10 * (u8 b / 16) + u8 b mod 16.
Proof.
  unfold bcd2bin. cbv zeta.
  pose proof (u8_range b) as Hb.
  rewrite land_15.
  rewrite Z.shiftr_div_pow2 by lia. change (2 ^ 4) with 16.
  destruct (digits_range (u8 b) 16) as [Hq Hr]; [lia | lia |].
  rewrite u32_small; lia.
Qed.

Lemma bcd2bin_range b : 0 <= bcd2bin b <= 165.
Proof.
  rewrite bcd2bin_digits. pose proof (u8_range b) as Hb.
  destruct (digits_range (u8 b) 16) as [Hq Hr]; lia.
Qed.

Lemma s32_bcd2bin b : s32 (bcd2bin b) = 10 * (u8 b / 16) + u8 b mod 16.
Proof.
  pose proof (bcd2bin_range b). rewrite s32_small by lia. apply bcd2bin_digits.
Qed.

Lemma bin2bcd_digits v : 0 <= v <= 99 -> bin2bcd v = 16 * (v / 10) + v mod 10.
Proof.
  intros Hv. unfold bin2bcd. cbv zeta.
  rewrite (u32_small v) by lia.
  rewrite Z.shiftl_mul_pow2 by lia. change (2 ^ 4) with 16.
  destruct (digits_range v 10) as [Hq Hr]; [lia | lia |].
  rewrite (u32_small (v / 10 * 16)) by lia.
  rewrite u32_small by lia. rewrite u8_small by lia. lia.
Qed.

Lemma u8_bin2bcd v : u8 (bin2bcd v) = bin2bcd v.
Proof. unfold bin2bcd. cbv zeta. apply u8_idem. Qed.

Lemma pack_div q r : 0 <= r < 16 -> (16 * q + r) / 16 = q.
Proof. intros Hr. symmetry. apply Z.div_unique with (r := r); lia. Qed.

Lemma pack_mod q r : 0 <= r < 16 -> (16 * q + r) mod 16 = r.
Proof. intros Hr. symmetry. apply Z.mod_unique with (q := q); lia. Qed.

(** The BCD property of the codec: every value 0..99 survives
    encode-then-decode. *)
Lemma bcd2bin_bin2bcd v : 0 <= v <= 99 -> bcd2bin (bin2bcd v) = v.
Proof.
  intros Hv. rewrite bcd2bin_digits, bin2bcd_digits by exact Hv.
  destruct (digits_range v 10) as [Hq Hr]; [lia | lia |].
  rewrite u8_small by lia.
  rewrite pack_div, pack_mod by lia.
  pose proof (Z.div_mod v 10 ltac:(lia)). lia.
Qed.

(** Below 80 the encoded byte has bit 7 clear, so the indicator mask of
    the second and minute registers leaves it alone. *)
Lemma mask_bin2bcd v : 0 <= v <= 79 -> Z.land (bin2bcd v) 0x7F = bin2bcd v.
Proof.
  intros Hv. rewrite land_127, bin2bcd_digits by lia.
  destruct (digits_range v 10) as [Hq Hr]; [lia | lia |].
  assert (v / 10 < 8) by (apply Z.div_lt_upper_bound; lia).
  apply Z.mod_small. lia.
Qed.

Lemma decode_masked v :
  0 <= v <= 79 -> s32 (bcd2bin (u8 (Z.land (u8 (bin2bcd v)) 0x7F))) = v.
Proof.
  intros Hv. rewrite u8_bin2bcd, mask_bin2bcd, u8_bin2bcd by exact Hv.
  rewrite bcd2bin_bin2bcd by lia. apply s32_small. lia.
Qed.

Lemma decode_plain v : 0 <= v <= 99 -> s32 (bcd2bin (u8 (bin2bcd v))) = v.
Proof.
  intros Hv. rewrite u8_bin2bcd, bcd2bin_bin2bcd by exact Hv.
  apply s32_small. lia.
Qed.

(** ** Single bits of an 8-bit register *)

Lemma land_bit x n :
  0 <= n -> Z.land x (2 ^ n) = if Z.testbit x n then 2 ^ n else 0.
Proof.
  intros Hn. apply Z.bits_inj'. intros i Hi.
  rewrite Z.land_spec, Z.pow2_bits_eqb by exact Hn.
  destruct (Z.eqb_spec n i) as [->|Hne].
  - destruct (Z.testbit x i); cbn [andb].
    + rewrite Z.pow2_bits_true by exact Hi. reflexivity.
    + rewrite Z.bits_0. reflexivity.
  - rewrite andb_false_r.
    destruct (Z.testbit x n);
      [rewrite Z.pow2_bits_false by assumption | rewrite Z.bits_0];
      reflexivity.
Qed.

Lemma u8_testbit x i : 0 <= i < 8 -> Z.testbit (u8 x) i = Z.testbit x i.
Proof.
  intros Hi. unfold u8. change 256 with (2 ^ 8).
  apply Z.mod_pow2_bits_low. lia.
Qed.

Lemma nonzero_false x : nonzero x = false -> x = 0.
Proof. unfold nonzero. destruct (Z.eqb_spec x 0); [trivial | discriminate]. Qed.

Lemma nonzero_true x : nonzero x = true -> x <> 0.
Proof. unfold nonzero. destruct (Z.eqb_spec x 0); [discriminate | trivial]. Qed.

Lemma nonzero_0 x : x = 0 -> nonzero x = false.
Proof. intros ->. reflexivity. Qed.

Lemma nonzero_land_bit x n :
  0 <= n -> nonzero (Z.land x (2 ^ n)) = Z.testbit x n.
Proof.
  intros Hn. rewrite land_bit by exact Hn.
  destruct (Z.testbit x n); [|reflexivity].
  unfold nonzero. assert (0 < 2 ^ n) by (apply Z.pow_pos_nonneg; lia).
  destruct (Z.eqb_spec (2 ^ n) 0); [lia | reflexivity].
Qed.

(** What [regmap_update_bits reg (2^n) 0] leaves in an 8-bit register:
    bit [n] is cleared and every other bit is kept. *)
Lemma clear_bit_testbit x n i :
  0 <= n -> 0 <= i < 8 ->
  Z.testbit (u8 (Z.lor (Z.land (u8 x) (Z.lnot (2 ^ n))) (Z.land 0 (2 ^ n)))) i
  = Z.testbit x i && negb (n =? i).
Proof.
  intros Hn Hi.
  rewrite u8_testbit by exact Hi.
  rewrite Z.land_0_l, Z.lor_0_r, Z.land_spec, Z.lnot_spec by lia.
  rewrite u8_testbit by exact Hi.
  rewrite Z.pow2_bits_eqb by exact Hn. reflexivity.
Qed.

(** ** The register file *)

Lemma upd_same r v f : upd r v f r = u8 v.
Proof. unfold upd. rewrite Z.eqb_refl. reflexivity. Qed.

Lemma upd_other r v f x : x <> r -> upd r v f x = f x.
Proof.
  intros H. unfold upd. destruct (Z.eqb_spec x r); [contradiction | reflexivity].
Qed.

Lemma store_below data : forall reg f x, x < reg -> store reg data f x = f x.
Proof.
  induction data as [|b bs IH]; intros reg f x Hx; cbn [store]; [reflexivity|].
  rewrite IH by lia. apply upd_other. lia.
Qed.

Lemma store_above data :
  forall reg f x, reg + Z.of_nat (List.length data) <= x -> store reg data f x = f x.
Proof.
  induction data as [|b bs IH]; intros reg f x Hx; cbn [store]; [reflexivity|].
  cbn [List.length] in Hx. rewrite IH by lia. apply upd_other. lia.
Qed.


(** A bulk read that follows a bulk write at the same address returns the
    bytes written (truncated to 8 bits). *)
Lemma fetch_store d1 :
  forall d2 reg f,
    fetch reg (List.length d1) (store reg (d1 ++ d2) f) = map u8 d1.
Proof.
  induction d1 as [|b bs IH]; intros d2 reg f; [reflexivity|].
  cbn [List.length fetch app store map].
  rewrite IH. rewrite store_below by lia.
  rewrite upd_same, u8_idem. reflexivity.
Qed.

Lemma fetch_upd_outside n :
  forall reg r v f,
    r < reg \/ reg + Z.of_nat n <= r ->
    fetch reg n (upd r v f) = fetch reg n f.
Proof.
  induction n as [|n IH]; intros reg r v f Hr; [reflexivity|].
  cbn [fetch]. rewrite IH by lia. rewrite upd_other by lia. reflexivity.
Qed.

(** ** Running the transport *)

Lemma bind_run {A B} (m : M A) (k : A -> M B) w :
  bind m k w = k (fst (m w)) (snd (m w)).
Proof. unfold bind. destruct (m w). reflexivity. Qed.

Lemma printk_run msg w :
  printk msg w = (tt, mk_world (regs w) (rets w) (trace w ++ [Printk msg])).
Proof. reflexivity. Qed.

Lemma dev_err_run code w :
  dev_err code w = (tt, mk_world (regs w) (rets w) (trace w ++ [Dev_err code])).
Proof. reflexivity. Qed.

Lemma rtc_update_irq_run n e w :
  rtc_update_irq n e w =
  (tt, mk_world (regs w) (rets w) (trace w ++ [Rtc_update_irq n e])).
Proof. reflexivity. Qed.

Lemma regmap_bulk_write_run reg data w :
  regmap_bulk_write reg data w =
  (ret_at w 0,
   mk_world (if nonzero (ret_at w 0) then regs w else store reg data (regs w))
            (tl (rets w)) (trace w ++ [Regmap_bulk_write reg data])).
Proof. by_script w. Qed.

Lemma regmap_write_run reg val w :
  regmap_write reg val w =
  (ret_at w 0,
   mk_world (if nonzero (ret_at w 0) then regs w else upd reg val (regs w))
            (tl (rets w)) (trace w ++ [Regmap_write reg val])).
Proof. by_script w. Qed.

Lemma regmap_update_bits_run reg mask val w :
  regmap_update_bits reg mask val w =
  (ret_at w 0,
   mk_world (if nonzero (ret_at w 0) then regs w
             else upd reg (Z.lor (Z.land (u8 (regs w reg)) (Z.lnot mask))
                                 (Z.land val mask)) (regs w))
            (tl (rets w)) (trace w ++ [Regmap_update_bits reg mask val])).
Proof. by_script w. Qed.

Lemma regmap_bulk_read_run reg len w :
  regmap_bulk_read reg len w =
  ((ret_at w 0,
    if nonzero (ret_at w 0) then [] else fetch reg (Z.to_nat len) (regs w)),
   mk_world (regs w) (tl (rets w)) (trace w ++ [Regmap_bulk_read reg len])).
Proof. by_script w. Qed.

Lemma regmap_read_run reg w :
  regmap_read reg w =
  ((ret_at w 0, if nonzero (ret_at w 0) then 0 else u8 (regs w reg)),
   mk_world (regs w) (tl (rets w)) (trace w ++ [Regmap_read reg])).
Proof. by_script w. Qed.

Lemma ret_at_same w f tr i :
  ret_at (mk_world f (rets w) tr) i = ret_at w i.
Proof. reflexivity. Qed.

Lemma ret_at_next w f tr i :
  ret_at (mk_world f (tl (rets w)) tr) i = ret_at w (S i).
Proof.
  unfold ret_at. cbn [rets]. destruct (rets w); [destruct i|]; reflexivity.
Qed.

Lemma ret_at_next2 w f tr i :
  ret_at (mk_world f (tl (tl (rets w))) tr) i = ret_at w (S (S i)).
Proof.
  unfold ret_at. cbn [rets].
  destruct (rets w) as [|a [|b l]]; [destruct i| destruct i|]; reflexivity.
Qed.

Create Rewrite HintDb bus.
#[global] Hint Rewrite @bind_run printk_run dev_err_run rtc_update_irq_run
  regmap_bulk_write_run regmap_write_run regmap_update_bits_run
  regmap_bulk_read_run regmap_read_run
  ret_at_same ret_at_next ret_at_next2 : bus.
#[global] Hint Rewrite <- app_assoc : bus.

Lemma calls_since_app w f rs new :
  calls_since w (mk_world f rs (trace w ++ new)) = new.
Proof.
  unfold calls_since. cbn [trace].
  rewrite skipn_app, skipn_all, Nat.sub_diag. reflexivity.
Qed.

Lemma register_writes_app tr new :
  register_writes (tr ++ new) = register_writes tr ++ register_writes new.
Proof. apply filter_app. Qed.

Lemma last_app_cons {A} (l : list A) x l' d :
  last (l ++ x :: l') d = last (x :: l') d.
Proof.
  induction l as [|a l IH]; [reflexivity|].
  cbn [app]. rewrite <- IH. destruct l; reflexivity.
Qed.

(** ** The driver functions, run

    Each equation gives the result and the final world of a driver
    function for every script of return codes. *)

Import Reg.

Lemma time_block_eq uninit tm :
  time_block uninit tm =
  [ u8 0; u8 (bin2bcd (tm_sec tm)); u8 (bin2bcd (tm_min tm));
    u8 (bin2bcd (tm_hour tm)); u8 (bin2bcd (tm_mday tm)); u8 (tm_wday tm);
    u8 (bin2bcd (s32 (tm_mon tm + 1))); u8 (bin2bcd (Z.rem (tm_year tm) 100)) ].
Proof. reflexivity. Qed.

Lemma time_block_bytes uninit tm : map u8 (time_block uninit tm) = time_block uninit tm.
Proof. rewrite time_block_eq. cbn [map]. rewrite !u8_idem. reflexivity. Qed.

Lemma decode_time_eq b0 b1 b2 b3 b4 b5 b6 b7 :
  PCF85363.decode_time [b0; b1; b2; b3; b4; b5; b6; b7] =
  mk_rtc_time (s32 (bcd2bin (u8 (Z.land b1 0x7F))))
              (s32 (bcd2bin (u8 (Z.land b2 0x7F))))
              (s32 (bcd2bin b3))
              (s32 (bcd2bin b4))
              (s32 (u32 (bcd2bin b6 - 1)))
              (s32 (s32 (bcd2bin b7) + 100))
              (Z.land b5 7).
Proof. reflexivity. Qed.

Lemma read_time_run tm w :
  PCF85363.pcf85363_rtc_read_time tm w =
  let r1 := ret_at w 0 in
  let p := Printk "read time  pcf85363 function has been called.\n" in
  let c1 := Regmap_bulk_read DT_100THS 8 in
  if nonzero r1 then
    ((r1, tm), mk_world (regs w) (tl (rets w)) (trace w ++ [p; c1; Dev_err r1]))
  else
    ((0, PCF85363.decode_time (fetch DT_100THS 8 (regs w))),
     mk_world (regs w) (tl (rets w)) (trace w ++ [p; c1])).
Proof.
  unfold PCF85363.pcf85363_rtc_read_time. cbv zeta.
  step. split_ret w 0%nat; step; reflexivity.
Qed.

Lemma read_time_run_263 tm w :
  PCF85263.pcf85263_rtc_read_time tm w =
  let r1 := ret_at w 0 in
  let c1 := Regmap_bulk_read DT_100THS 8 in
  if nonzero r1 then
    ((r1, tm), mk_world (regs w) (tl (rets w)) (trace w ++ [c1; Dev_err r1]))
  else
    ((0, PCF85263.decode_time (fetch DT_100THS 8 (regs w))),
     mk_world (regs w) (tl (rets w)) (trace w ++ [c1])).
Proof.
  unfold PCF85263.pcf85263_rtc_read_time. cbv zeta.
  step. split_ret w 0%nat; step; reflexivity.
Qed.

Section SetTime.
Variable uninit : nat -> Z.
Variable tm : rtc_time.

Let block : list Z := time_block uninit tm ++ [uninit 10%nat].
Let c1 : call := Regmap_bulk_write CTRL_STOP_EN [STOP_EN_STOP; RESET_CPR].
Let c2 : call := Regmap_bulk_write DT_100THS block.
Let c3 : call := Regmap_write CTRL_STOP_EN 0.

(** The register file after the stop/reset write, after the time
    write, and after the resume write. *)
Let f1 (w : world) : Z -> Z := store CTRL_STOP_EN [STOP_EN_STOP; RESET_CPR] (regs w).
Let f2 (w : world) : Z -> Z := store DT_100THS block (f1 w).
Let f3 (w : world) : Z -> Z := upd CTRL_STOP_EN 0 (f2 w).

Lemma set_time_run w :
  PCF85363.pcf85363_rtc_set_time uninit tm w =
  let p := Printk "set time pcf85363 function has been called.\n" in
  if nonzero (ret_at w 0) then
    (ret_at w 0, mk_world (regs w) (tl (rets w)) (trace w ++ [p; c1]))
  else if nonzero (ret_at w 1) then
    (ret_at w 1, mk_world (f1 w) (tl (tl (rets w))) (trace w ++ [p; c1; c2]))
  else
    (ret_at w 2,
     mk_world (if nonzero (ret_at w 2) then f2 w else f3 w)
              (tl (tl (tl (rets w)))) (trace w ++ [p; c1; c2; c3])).
Proof.
  unfold PCF85363.pcf85363_rtc_set_time. cbv zeta.
  step. split_ret w 0%nat; [reflexivity|].
  step. split_ret w 1%nat; [reflexivity|].
  step. reflexivity.
Qed.

Lemma set_time_run_263 w :
  PCF85263.pcf85263_rtc_set_time uninit tm w =
  if nonzero (ret_at w 0) then
    (ret_at w 0, mk_world (regs w) (tl (rets w)) (trace w ++ [c1]))
  else if nonzero (ret_at w 1) then
    (ret_at w 1, mk_world (f1 w) (tl (tl (rets w))) (trace w ++ [c1; c2]))
  else
    (ret_at w 2,
     mk_world (if nonzero (ret_at w 2) then f2 w else f3 w)
              (tl (tl (tl (rets w)))) (trace w ++ [c1; c2; c3])).
Proof.
  unfold PCF85263.pcf85263_rtc_set_time. cbv zeta.
  step. split_ret w 0%nat; [reflexivity|].
  step. split_ret w 1%nat; [reflexivity|].
  step. reflexivity.
Qed.

End SetTime.

Lemma alarm_irq_enable_run enabled w :
  PCF85363._pcf85363_rtc_alarm_irq_enable enabled w =
  let p := Printk " _ alarm enable pcf85363 function has been called.\n" in
  let v1 := if nonzero enabled then 0x1f else 0 in
  let v2 := if nonzero enabled then 0x10 else 0 in
  let c1 := Regmap_update_bits DT_ALARM_EN 0x1f v1 in
  let c2 := Regmap_update_bits CTRL_INTA_EN INT_A1IE v2 in
  let c3 := Regmap_update_bits CTRL_FLAGS FLAGS_A1F 0 in
  let f1 := upd DT_ALARM_EN
              (Z.lor (Z.land (u8 (regs w DT_ALARM_EN)) (Z.lnot 0x1f))
                     (Z.land v1 0x1f)) (regs w) in
  let f2 := upd CTRL_INTA_EN
              (Z.lor (Z.land (u8 (f1 CTRL_INTA_EN)) (Z.lnot 0x10))
                     (Z.land v2 0x10)) f1 in
  let f3 := upd CTRL_FLAGS
              (Z.lor (Z.land (u8 (f2 CTRL_FLAGS)) (Z.lnot 0x20))
                     (Z.land 0 0x20)) f2 in
  if nonzero (ret_at w 0) then
    (ret_at w 0, mk_world (regs w) (tl (rets w)) (trace w ++ [p; c1]))
  else if nonzero (ret_at w 1) then
    (ret_at w 1, mk_world f1 (tl (tl (rets w))) (trace w ++ [p; c1; c2]))
  else if nonzero enabled then
    (ret_at w 1, mk_world f2 (tl (tl (rets w))) (trace w ++ [p; c1; c2]))
  else
    (ret_at w 2,
     mk_world (if nonzero (ret_at w 2) then f2 else f3)
              (tl (tl (tl (rets w)))) (trace w ++ [p; c1; c2; c3])).
Proof.
  unfold PCF85363._pcf85363_rtc_alarm_irq_enable. cbv zeta.
  step. split_ret w 0%nat; [reflexivity|].
  step. split_ret w 1%nat; [reflexivity|].
  destruct (nonzero enabled); [reflexivity|].
  step. reflexivity.
Qed.

Lemma handle_irq_run w :
  PCF85363.pcf85363_rtc_handle_irq w =
  let p := Printk "irq handle pcf85363 function has been called.\n" in
  let c1 := Regmap_read CTRL_FLAGS in
  let e := Rtc_update_irq 1 0xa0 in
  let c2 := Regmap_update_bits CTRL_FLAGS FLAGS_A1F 0 in
  let flags := u8 (regs w CTRL_FLAGS) in
  if nonzero (ret_at w 0) then
    (PCF85363.IRQ_NONE, mk_world (regs w) (tl (rets w)) (trace w ++ [p; c1]))
  else if nonzero (Z.land flags 0x20) then
    (PCF85363.IRQ_HANDLED,
     mk_world (if nonzero (ret_at w 1) then regs w
               else upd CTRL_FLAGS
                      (Z.lor (Z.land flags (Z.lnot 0x20)) (Z.land 0 0x20))
                      (regs w))
              (tl (tl (rets w))) (trace w ++ [p; c1; e; c2]))
  else
    (PCF85363.IRQ_NONE, mk_world (regs w) (tl (rets w)) (trace w ++ [p; c1])).
Proof.
  unfold PCF85363.pcf85363_rtc_handle_irq. cbv zeta.
  step. split_ret w 0%nat; [reflexivity|].
  change FLAGS_A1F with 0x20.
  destruct (nonzero (Z.land (u8 (regs w CTRL_FLAGS)) 0x20)); [|reflexivity].
  step. reflexivity.
Qed.

(** [set_alarm] is where the disable-first ordering lives: its first three
    register writes switch the alarm off, whatever it is asked to
    establish, and only then are the match fields written. *)
Lemma set_alarm_disables_first alrm f :
  let w' := snd (PCF85363.pcf85363_rtc_set_alarm alrm (boot f [])) in
  firstn 4 (register_writes (trace w')) =
  [ Regmap_update_bits DT_ALARM_EN 0x1f 0;
    Regmap_update_bits CTRL_INTA_EN INT_A1IE 0;
    Regmap_update_bits CTRL_FLAGS FLAGS_A1F 0;
    Regmap_bulk_write DT_SECOND_ALM1
      [ bin2bcd (tm_sec (fst alrm)); bin2bcd (tm_min (fst alrm));
        bin2bcd (tm_hour (fst alrm)); bin2bcd (tm_mday (fst alrm));
        bin2bcd (s32 (tm_mon (fst alrm) + 1)) ] ].
Proof.
  cbv zeta.
  unfold PCF85363.pcf85363_rtc_set_alarm, PCF85363._pcf85363_rtc_alarm_irq_enable.
  destruct (nonzero (snd alrm)); reflexivity.
Qed.

(** The scenario of a successful [set_time] followed by [read_time]: the
    date/time registers read back are the block that was written. *)
Lemma read_time_after_set_time uninit tm tm0 f :
  let w1 := snd (PCF85363.pcf85363_rtc_set_time uninit tm (boot f [])) in
  fst (PCF85363.pcf85363_rtc_read_time tm0 w1) =
  (0, PCF85363.decode_time (time_block uninit tm)).
Proof.
  cbv zeta. rewrite set_time_run. cbv zeta. unfold boot, ret_at.
  cbn [rets nth]. change (nonzero 0) with false. cbv iota. cbn [snd].
  rewrite read_time_run. cbv zeta. unfold ret_at. cbn [rets nth tl regs].
  change (nonzero 0) with false. cbv iota. cbn [fst].
  rewrite fetch_upd_outside by (unfold CTRL_STOP_EN, DT_100THS; lia).
  change 8%nat with (List.length (time_block uninit tm)).
  rewrite fetch_store, time_block_bytes. reflexivity.
Qed.

(** * TimeCodec *)

(** C3, as stated, fails: a seconds register holding 0x0A (low nibble 10)
    is a corrupt buffer in the sense of the claim, yet [read_time] returns
    0 and hands back 10 seconds. *)
Lemma read_time_accepts_bad_nibble :
  let f := fun r => if r =? DT_SECS then 0x0A else 0 in
  let run := PCF85363.pcf85363_rtc_read_time sample_time (boot f []) in
  corrupt_fields (fetch DT_100THS 8 f) = true
  /\ fst (fst run) = 0
  /\ tm_sec (snd (fst run)) = 10.
Proof. vm_compute. repeat split. Qed.

(** C3 (amended): [read_time] has no corrupt-data result.  Its return code
    is the transport's code for the bulk read and nothing else; when the
    read succeeds, every register buffer is decoded, each BCD field as
    ten times its high nibble plus its low nibble (second and minute after
    masking bit 7), nibble values 10..15 included, the month minus one,
    the year plus 100 and the weekday as the low three bits. *)
Theorem read_time_decodes_any_nibbles (tm : rtc_time) (w : world) :
  let run := PCF85363.pcf85363_rtc_read_time tm w in
  let b := fun i => u8 (regs w i) in
  let digits := fun x => 10 * (x / 16) + x mod 16 in
  fst (fst run) = ret_at w 0
  /\ snd (fst run) =
       (if nonzero (ret_at w 0) then tm
        else mk_rtc_time (digits (b DT_SECS mod 128))
                         (digits (b DT_MINUTES mod 128))
                         (digits (b DT_HOURS))
                         (digits (b DT_DAYS))
                         (digits (b DT_MONTHS) - 1)
                         (digits (b DT_YEARS) + 100)
                         (b DT_WEEKDAYS mod 8)).
Proof.
  cbv zeta. rewrite read_time_run. cbv zeta.
  destruct (nonzero (ret_at w 0)) eqn:E0; cbn [fst snd]; [split; reflexivity|].
  split; [symmetry; apply nonzero_false, E0|].
  change (fetch DT_100THS 8 (regs w))
    with [u8 (regs w 0); u8 (regs w 1); u8 (regs w 2); u8 (regs w 3);
          u8 (regs w 4); u8 (regs w 5); u8 (regs w 6); u8 (regs w 7)].
  rewrite decode_time_eq.
  rewrite !u8_mask, !s32_bcd2bin, !u8_idem, land_7.
  rewrite s32_pred.
  2: { pose proof (bcd2bin_range (u8 (regs w 6))) as H. lia. }
  rewrite bcd2bin_digits, u8_idem.
  rewrite s32_small.
  2: { pose proof (bcd2bin_range (regs w 7)) as H.
       rewrite bcd2bin_digits in H. lia. }
  rewrite !(u8_small (u8 _ mod 128)).
  2,3: pose proof (Z.mod_pos_bound (u8 (regs w 1)) 128 ltac:(lia));
       pose proof (Z.mod_pos_bound (u8 (regs w 2)) 128 ltac:(lia)); lia.
  reflexivity.
Qed.

(** C4, as stated, fails: 18 December of year 23 is a valid time of the
    claim, and decoding its encoding gives year 123. *)
Lemma time_roundtrip_shifts_year :
  PCF85363.decode_time (time_block zero_stack sample_time) <> sample_time
  /\ tm_year sample_time = 23
  /\ tm_year (PCF85363.decode_time (time_block zero_stack sample_time)) = 123.
Proof. vm_compute. repeat split. discriminate. Qed.

(** C4 (amended): for every time with year 0..199, month up to 12, day
    1..31, hour 0..23, minute and second 0..59 and weekday 0..6, decoding
    the encoded block gives the time back in every field but the year,
    which comes back as [year mod 100 + 100]: the decoder adds the 1900
    base of [rtc_time] to the BCD year.  So the round trip is the identity
    for years 100..199, and a year 0..99 comes back 100 larger. *)
Theorem time_roundtrip_adds_1900_base (uninit : nat -> Z) (t : rtc_time) :
  0 <= tm_year t <= 199 ->
  0 <= tm_mon t <= 12 ->
  1 <= tm_mday t <= 31 ->
  0 <= tm_hour t <= 23 ->
  0 <= tm_min t <= 59 ->
  0 <= tm_sec t <= 59 ->
  0 <= tm_wday t <= 6 ->
  PCF85363.decode_time (time_block uninit t)
  = with_year t (tm_year t mod 100 + 100).
Proof.
  intros Hy Hmo Hd Hh Hmi Hs Hw.
  rewrite time_block_eq, decode_time_eq. unfold with_year.
  rewrite !decode_masked by lia.
  rewrite !decode_plain by lia.
  rewrite (s32_small (tm_mon t + 1)) by lia.
  rewrite Z.rem_mod_nonneg by lia.
  pose proof (Z.mod_pos_bound (tm_year t) 100 ltac:(lia)) as Hym.
  rewrite !u8_bin2bcd, !bcd2bin_bin2bcd by lia.
  rewrite (s32_small (tm_year t mod 100)) by lia.
  rewrite (s32_small (tm_year t mod 100 + 100)) by lia.
  replace (u32 (tm_mon t + 1 - 1)) with (tm_mon t) by (rewrite u32_small; lia).
  rewrite (s32_small (tm_mon t)) by lia.
  rewrite land_7, (u8_small (tm_wday t)) by lia.
  rewrite (Z.mod_small (tm_wday t) 8) by lia.
  reflexivity.
Qed.

Lemma time_roundtrip_adds_1900_base_witness :
  PCF85363.decode_time (time_block zero_stack sample_time)
  = with_year sample_time 123.
Proof.
  apply (time_roundtrip_adds_1900_base zero_stack sample_time); simpl; lia.
Defined.

(** * TimeWriteSequencer *)

(** C1: the claim is that the time transaction writes registers 0x00-0x07
    and nothing else.  The driver declares [tmp[11]], fills [buf[0..7]]
    and sends [sizeof(tmp) - 2 = 9] bytes: in both variants the bulk write
    at [DT_100THS] carries the eight encoded bytes followed by the
    uninitialised [tmp[10]], which the peripheral stores in register 0x08,
    the alarm-1 second match field. *)
Theorem set_time_bulk_write_spills_into_alarm1
        (uninit : nat -> Z) (tm : rtc_time) (f : Z -> Z) :
  let w363 := snd (PCF85363.pcf85363_rtc_set_time uninit tm (boot f [])) in
  let w263 := snd (PCF85263.pcf85263_rtc_set_time uninit tm (boot f [])) in
  let block := time_block uninit tm ++ [uninit 10%nat] in
  let writes := [ Regmap_bulk_write CTRL_STOP_EN [STOP_EN_STOP; RESET_CPR];
                  Regmap_bulk_write DT_100THS block;
                  Regmap_write CTRL_STOP_EN 0 ] in
  register_writes (trace w363) = writes
  /\ register_writes (trace w263) = writes
  /\ List.length block = 9%nat
  /\ existsb (writes_reg DT_SECOND_ALM1) (trace w363) = true
  /\ existsb (writes_reg DT_SECOND_ALM1) (trace w263) = true
  /\ regs w363 DT_SECOND_ALM1 = u8 (uninit 10%nat)
  /\ regs w263 DT_SECOND_ALM1 = u8 (uninit 10%nat).
Proof.
  cbv zeta. rewrite set_time_run, set_time_run_263. cbv zeta.
  rewrite time_block_eq. repeat split.
Qed.

(** The same run on the sample time, with 0xAB lying in [tmp[10]]: the
    alarm-1 second register goes from 0 to 0xAB. *)
Example set_time_sample_run :
  let run := PCF85363.pcf85363_rtc_set_time (fun _ => 0xAB) sample_time
               (boot (fun _ => 0) []) in
  fst run = 0
  /\ register_writes (trace (snd run)) =
       [ Regmap_bulk_write 0x2e [1; 0xa4];
         Regmap_bulk_write 0x00 [0; 0; 0x05; 0x09; 0x18; 1; 0x13; 0x23; 0xAB];
         Regmap_write 0x2e 0 ]
  /\ regs (boot (fun _ => 0) []) 0x08 = 0
  /\ regs (snd run) 0x08 = 0xAB.
Proof. vm_compute. repeat split. Qed.

(** C6, as stated, fails: with the transport answering -5 to the
    stop/reset write, to the time write, or to the resume write,
    [set_time] returns the same -5 each time, although the stop bit is
    set in the peripheral only in the last two runs. *)
Lemma set_time_failure_codes_coincide :
  let early := PCF85363.pcf85363_rtc_set_time zero_stack sample_time
                 (boot (fun _ => 0) [-5]) in
  let halted := PCF85363.pcf85363_rtc_set_time zero_stack sample_time
                  (boot (fun _ => 0) [0; -5]) in
  let unresumed := PCF85363.pcf85363_rtc_set_time zero_stack sample_time
                     (boot (fun _ => 0) [0; 0; -5]) in
  fst early = fst halted /\ fst early = fst unresumed
  /\ regs (snd early) CTRL_STOP_EN = 0
  /\ regs (snd halted) CTRL_STOP_EN = STOP_EN_STOP
  /\ regs (snd unresumed) CTRL_STOP_EN = STOP_EN_STOP.
Proof. vm_compute. repeat split. Qed.

(** C6 (amended): [set_time] returns, unchanged, the transport's return
    code of the first of its three writes that fails (0 when none does),
    in both variants; a failure of the time write or of the resume write
    is reported with the plain transport code, exactly as a failure of the
    stop/reset write is, and leaves the stop bit set in register 0x2E. *)
Theorem set_time_returns_transport_code
        (uninit : nat -> Z) (tm : rtc_time) (w : world) :
  let r1 := ret_at w 0 in
  let r2 := ret_at w 1 in
  let r3 := ret_at w 2 in
  let run := PCF85363.pcf85363_rtc_set_time uninit tm w in
  let run' := PCF85263.pcf85263_rtc_set_time uninit tm w in
  fst run = (if nonzero r1 then r1 else if nonzero r2 then r2 else r3)
  /\ fst run' = fst run
  /\ regs (snd run) CTRL_STOP_EN =
       (if nonzero r1 then regs w CTRL_STOP_EN
        else if nonzero r2 || nonzero r3 then STOP_EN_STOP else 0).
Proof.
  cbv zeta. rewrite set_time_run, set_time_run_263. cbv zeta.
  rewrite time_block_eq.
  destruct (nonzero (ret_at w 0)); [repeat split|].
  destruct (nonzero (ret_at w 1)); [repeat split|].
  destruct (nonzero (ret_at w 2)); repeat split.
Qed.

(** * AlarmController *)

(** C5, as stated, fails: asked to enable, the function's register writes
    are the two that assert the match-enable bits and the
    interrupt-enable bit; nothing is cleared first. *)
Lemma alarm_enable_asserts_without_clearing :
  let w := boot (fun _ => 0) [] in
  let w' := snd (PCF85363._pcf85363_rtc_alarm_irq_enable 1 w) in
  register_writes (trace w') =
    [ Regmap_update_bits DT_ALARM_EN 0x1f 0x1f;
      Regmap_update_bits CTRL_INTA_EN 0x10 0x10 ]
  /\ forces_off_first (trace w') = false.
Proof. vm_compute. split; reflexivity. Qed.

(** C5 (amended): for every outcome of the transport, the register writes
    of the alarm-enable function are: first the five match-enable bits,
    written directly to the target state; then, only if that write
    succeeded, the interrupt-enable bit, written directly to the target
    state; then, only if both succeeded and the target state is disabled,
    the clear of the status flag.  Nothing is cleared before the bits are
    asserted when the target is enabled: the alarm is forced off first
    (both groups cleared before any other write) exactly when the target
    state is disabled and the first write succeeded. *)
Theorem alarm_irq_enable_writes_target_state (enabled : Z) (w : world) :
  let w' := snd (PCF85363._pcf85363_rtc_alarm_irq_enable enabled w) in
  register_writes (calls_since w w') =
    Regmap_update_bits DT_ALARM_EN 0x1f (if nonzero enabled then 0x1f else 0)
    :: (if nonzero (ret_at w 0) then []
        else Regmap_update_bits CTRL_INTA_EN INT_A1IE
               (if nonzero enabled then INT_A1IE else 0)
             :: (if nonzero (ret_at w 1) || nonzero enabled then []
                 else [Regmap_update_bits CTRL_FLAGS FLAGS_A1F 0]))
  /\ forces_off_first (calls_since w w')
     = negb (nonzero enabled) && negb (nonzero (ret_at w 0)).
Proof.
  cbv zeta. rewrite alarm_irq_enable_run. cbv zeta.
  destruct (nonzero (ret_at w 0)); [|destruct (nonzero (ret_at w 1))];
    destruct (nonzero enabled); cbn [snd orb]; rewrite calls_since_app;
    split; reflexivity.
Qed.

(** C8: when the alarm-enable function returns 0 with target state
    disabled, the last call it made is the masked update that clears
    [FLAGS_A1F] in the status register, and bit 5 of that register is
    clear afterwards; when the target state is enabled, none of its calls
    writes the status register, whose contents are left as they were. *)
Theorem alarm_irq_enable_status_flag (enabled : Z) (w : world) :
  let run := PCF85363._pcf85363_rtc_alarm_irq_enable enabled w in
  (enabled = 0 -> fst run = 0 ->
     last (trace (snd run)) (Printk "")
     = Regmap_update_bits CTRL_FLAGS FLAGS_A1F 0
     /\ Z.testbit (regs (snd run) CTRL_FLAGS) 5 = false)
  /\ (enabled <> 0 ->
     existsb (writes_reg CTRL_FLAGS) (calls_since w (snd run)) = false
     /\ regs (snd run) CTRL_FLAGS = regs w CTRL_FLAGS).
Proof.
  cbv zeta. rewrite alarm_irq_enable_run. cbv zeta. split.
  - intros ->. change (nonzero 0) with false. cbv iota.
    destruct (nonzero (ret_at w 0)) eqn:E0; cbn [fst].
    { intros Hok. apply nonzero_true in E0. contradiction. }
    destruct (nonzero (ret_at w 1)) eqn:E1; cbn [fst].
    { intros Hok. apply nonzero_true in E1. contradiction. }
    intros Hok. rewrite (nonzero_0 _ Hok). cbn [snd trace regs]. split.
    + rewrite last_app_cons. reflexivity.
    + rewrite upd_same. change 32 with (2 ^ 5).
      rewrite clear_bit_testbit by lia. apply andb_false_r.
  - intros Hen.
    assert (nonzero enabled = true) as ->.
    { unfold nonzero. destruct (Z.eqb_spec enabled 0);
        [contradiction | reflexivity]. }
    destruct (nonzero (ret_at w 0)); [|destruct (nonzero (ret_at w 1))];
      cbn [snd regs]; rewrite calls_since_app; split; reflexivity.
Qed.

Lemma alarm_irq_enable_status_flag_witness :
  Z.testbit
    (regs (snd (PCF85363._pcf85363_rtc_alarm_irq_enable 0
                  (boot (fun _ => 0xff) [])))
          CTRL_FLAGS) 5 = false
  /\ regs (snd (PCF85363._pcf85363_rtc_alarm_irq_enable 1
                  (boot (fun _ => 0xff) [])))
          CTRL_FLAGS = 0xff.
Proof.
  split.
  - exact (proj2 (proj1 (alarm_irq_enable_status_flag 0 (boot (fun _ => 0xff) []))
                    eq_refl eq_refl)).
  - refine (proj2 (proj2 (alarm_irq_enable_status_flag 1
                            (boot (fun _ => 0xff) [])) _)).
    discriminate.
Defined.

(** * InterruptEventHandler *)

(** C7: the interrupt handler samples the status register with exactly
    one read.  Its only register write, made exactly when that read
    succeeded and showed bit 5 set, is the masked update of [FLAGS_A1F]
    to 0 in the status register (the transport's read-modify-write); it
    answers [IRQ_HANDLED] in that case and [IRQ_NONE] otherwise.  No other
    register changes, the other seven bits of the status register keep
    their values, nothing at all changes when the bit was not seen set,
    and bit 5 is clear once the update has succeeded. *)
Theorem handle_irq_acks_only_alarm1 (w : world) :
  let run := PCF85363.pcf85363_rtc_handle_irq w in
  let w' := snd run in
  let new := calls_since w w' in
  let fired := negb (nonzero (ret_at w 0)) && Z.testbit (regs w CTRL_FLAGS) 5 in
  List.length (filter (reads_reg CTRL_FLAGS) new) = 1%nat
  /\ filter is_write new =
       (if fired then [Regmap_update_bits CTRL_FLAGS FLAGS_A1F 0] else [])
  /\ fst run = (if fired then PCF85363.IRQ_HANDLED else PCF85363.IRQ_NONE)
  /\ (forall reg, reg <> CTRL_FLAGS -> regs w' reg = regs w reg)
  /\ (forall i, 0 <= i < 8 -> i <> 5 ->
        Z.testbit (regs w' CTRL_FLAGS) i = Z.testbit (regs w CTRL_FLAGS) i)
  /\ (fired = false -> regs w' = regs w)
  /\ (fired = true -> ret_at w 1 = 0 ->
        Z.testbit (regs w' CTRL_FLAGS) 5 = false).
Proof.
  cbv zeta. rewrite handle_irq_run. cbv zeta.
  change 32 with (2 ^ 5).
  rewrite nonzero_land_bit, u8_testbit by lia.
  destruct (nonzero (ret_at w 0)) eqn:E0; cbn [negb andb fst snd regs].
  { rewrite calls_since_app. repeat split; discriminate. }
  destruct (Z.testbit (regs w CTRL_FLAGS) 5) eqn:E5; cbn [fst snd regs].
  2: { rewrite calls_since_app. repeat split; discriminate. }
  rewrite calls_since_app. repeat split; try discriminate.
  - intros reg Hreg. destruct (nonzero (ret_at w 1)); [reflexivity|].
    apply upd_other. exact Hreg.
  - intros i Hi Hne. destruct (nonzero (ret_at w 1)); [reflexivity|].
    rewrite upd_same, clear_bit_testbit by lia.
    destruct (Z.eqb_spec 5 i); [lia|]. apply andb_true_r.
  - intros _ H1. rewrite (nonzero_0 _ H1).
    rewrite upd_same, clear_bit_testbit by lia. apply andb_false_r.
Qed.

Lemma handle_irq_acks_only_alarm1_witness :
  Z.testbit
    (regs (snd (PCF85363.pcf85363_rtc_handle_irq (boot (fun _ => 0xff) [])))
          CTRL_FLAGS) 5 = false
  /\ regs (snd (PCF85363.pcf85363_rtc_handle_irq (boot (fun _ => 0xdf) [])))
     = regs (boot (fun _ => 0xdf) []).
Proof.
  split.
  - exact (proj2 (proj2 (proj2 (proj2 (proj2 (proj2
             (handle_irq_acks_only_alarm1 (boot (fun _ => 0xff) [])))))))
             eq_refl eq_refl).
  - exact (proj1 (proj2 (proj2 (proj2 (proj2 (proj2
             (handle_irq_acks_only_alarm1 (boot (fun _ => 0xdf) [])))))))
             eq_refl).
Defined.

(** * NvramPassthrough *)

(** C2, as stated, fails: with a bank of 0x40 bytes, a one-byte read and
    a one-byte write at offset 0x40 both reach the bus, at register 0x80,
    and return 0. *)
Lemma nvram_out_of_range_reaches_bus :
  let w := boot (fun _ => 0) [] in
  let rd := PCF85363.pcf85363_nvram_read 0x40 1 w in
  let wr := PCF85363.pcf85363_nvram_write 0x40 [0xff] 1 w in
  PCF85363.NVRAM_SIZE < 0x40 + 1
  /\ fst (fst rd) = 0
  /\ filter is_regmap (trace (snd rd)) = [Regmap_bulk_read 0x80 1]
  /\ fst wr = 0
  /\ filter is_regmap (trace (snd wr)) = [Regmap_bulk_write 0x80 [0xff]]
  /\ regs (snd wr) 0x80 = 0xff.
Proof. vm_compute. repeat split. Qed.

(** C2 (amended): the NVRAM read and write functions make no bounds
    check.  For every offset and length each issues exactly one bulk
    transaction, at register [CTRL_RAM + offset] and of the given length,
    and returns the transport's code for it. *)
Theorem nvram_forwards_without_bounds_check
        (offset bytes : Z) (val : list Z) (w : world) :
  let rd := PCF85363.pcf85363_nvram_read offset bytes w in
  let wr := PCF85363.pcf85363_nvram_write offset val bytes w in
  fst (fst rd) = ret_at w 0
  /\ filter is_regmap (calls_since w (snd rd)) =
       [Regmap_bulk_read (u32 (CTRL_RAM + offset)) bytes]
  /\ fst wr = ret_at w 0
  /\ filter is_regmap (calls_since w (snd wr)) =
       [Regmap_bulk_write (u32 (CTRL_RAM + offset))
          (firstn (Z.to_nat bytes) val)].
Proof.
  cbv zeta. unfold PCF85363.pcf85363_nvram_read, PCF85363.pcf85363_nvram_write.
  step. rewrite !calls_since_app. repeat split.
Qed.

(** * Registration *)

(** C9: whatever the I2C and RTC cores answer, the only registration
    [probe] makes is that of the RTC device with [rtc_ops], whose members
    are the read-time and set-time functions; so these two are the only
    functions of the file reachable through the registered device, and the
    alarm functions, the interrupt handler and the NVRAM functions are
    not. *)
Theorem probe_registers_time_ops_only (env : probe_env) (f : driver_fn) :
  let calls := snd (PCF85363.pcf85363_probe env) in
  let ok := functionality env && kzalloc_ok env in
  filter is_registration calls =
    (if ok then [Devm_rtc_device_register "pcf85363" PCF85363.rtc_ops] else [])
  /\ ops_members PCF85363.rtc_ops = [Fn_rtc_read_time; Fn_rtc_set_time]
  /\ reachable calls f =
       ok && match f with
             | Fn_rtc_read_time | Fn_rtc_set_time => true
             | _ => false
             end.
Proof.
  cbv zeta. unfold PCF85363.pcf85363_probe.
  destruct (functionality env); cbn [negb andb]; [|repeat split].
  destruct (kzalloc_ok env); cbn [negb andb snd]; [|repeat split].
  repeat split. destruct f; reflexivity.
Qed.

(** * The two variants *)




(** X23: through the device that the pcf85263 [probe] registers, only
    the read-time and set-time functions are reachable, and only when the
    functionality check, the allocation and the regmap creation succeeded. *)
Lemma probe_263_registers_time_ops_only (env : probe_env) (f : driver_fn) :
  let calls := snd (PCF85263.pcf85263_probe env) in
  let ok := functionality env && kzalloc_ok env
            && negb (nonzero (regmap_err env)) in
  reachable calls f =
    ok && match f with
          | Fn_rtc_read_time | Fn_rtc_set_time => true
          | _ => false
          end.
Proof.
  cbv zeta. unfold PCF85263.pcf85263_probe.
  destruct (functionality env); cbn [negb andb]; [|reflexivity].
  destruct (kzalloc_ok env); cbn [negb andb]; [|reflexivity].
  destruct (nonzero (regmap_err env)); cbn [negb snd]; [reflexivity|].
  destruct f; reflexivity.
Qed.

(** The alarm scenario: an alarm set for 07:30:00 on day 1 of month 1,
    enabled, is read back with the same fields and [enabled = 1]. *)
Example set_alarm_then_read_alarm :
  let alrm := (mk_rtc_time 0 30 7 1 1 0 0, 1) in
  let w1 := snd (PCF85363.pcf85363_rtc_set_alarm alrm (boot (fun _ => 0) [])) in
  fst (PCF85363.pcf85363_rtc_read_alarm (mk_rtc_time 0 0 0 0 0 0 0, 0)
         (boot (regs w1) []))
  = (0, alrm).
Proof. vm_compute. reflexivity. Qed.

(** X22: the public alarm-interrupt-enable entry point returns the same
    code, leaves the same register file and makes the same register
    writes as the internal function it wraps. *)
Lemma alarm_irq_enable_wrapper enabled w :
  let inner := PCF85363._pcf85363_rtc_alarm_irq_enable enabled w in
  let outer := PCF85363.pcf85363_rtc_alarm_irq_enable enabled w in
  fst outer = fst inner
  /\ regs (snd outer) = regs (snd inner)
  /\ register_writes (calls_since w (snd outer))
     = register_writes (calls_since w (snd inner)).
Proof.
  cbv zeta. unfold PCF85363.pcf85363_rtc_alarm_irq_enable.
  step. rewrite !alarm_irq_enable_run. cbv zeta.
  cbn [regs rets trace]. rewrite !ret_at_same.
  destruct (nonzero (ret_at w 0)); [|destruct (nonzero (ret_at w 1));
    [|destruct (nonzero enabled)]];
    cbn [fst snd regs]; rewrite <- ?app_assoc, !calls_since_app;
    repeat split.
Qed.

(** * Further properties of the drivers *)


Lemma update_bits_testbit x m v i :
  0 <= i < 8 ->
  Z.testbit (u8 (Z.lor (Z.land (u8 x) (Z.lnot m)) (Z.land v m))) i
  = if Z.testbit m i then Z.testbit v i else Z.testbit x i.
Proof.
  intros Hi.
  rewrite u8_testbit by exact Hi.
  rewrite Z.lor_spec, !Z.land_spec, Z.lnot_spec by lia.
  rewrite u8_testbit by exact Hi.
  destruct (Z.testbit m i); cbn [negb].
  - rewrite andb_false_r, andb_true_r. reflexivity.
  - rewrite andb_true_r, andb_false_r, orb_false_r. reflexivity.
Qed.

Lemma testbit_31 i : 0 <= i < 8 -> Z.testbit 31 i = (i <? 5).
Proof.
  intros Hi.
  assert (i = 0 \/ i = 1 \/ i = 2 \/ i = 3 \/ i = 4 \/ i = 5 \/ i = 6 \/ i = 7)
    as H by lia.
  repeat (destruct H as [->|H]; [reflexivity|]). subst. reflexivity.
Qed.

Lemma testbit_16 i : 0 <= i -> Z.testbit 16 i = (4 =? i).
Proof. intros Hi. change 16 with (2 ^ 4). apply Z.pow2_bits_eqb. lia. Qed.

Lemma testbit_32 i : 0 <= i -> Z.testbit 32 i = (5 =? i).
Proof. intros Hi. change 32 with (2 ^ 5). apply Z.pow2_bits_eqb. lia. Qed.

Lemma nth_tl {A} (l : list A) i d : nth i (tl l) d = nth (S i) l d.
Proof. destruct l; [destruct i|]; reflexivity. Qed.

Lemma bcd_valid_digits b :
  0 <= b < 256 -> bcd_valid b = true -> 0 <= b / 16 <= 9 /\ 0 <= b mod 16 <= 9.
Proof.
  intros Hb H. unfold bcd_valid in H. apply andb_true_iff in H as [H1 H2].
  apply Z.leb_le in H1, H2.
  destruct (digits_range b 16) as [Hq Hr]; lia.
Qed.

Lemma bin2bcd_bcd2bin b :
  0 <= b < 256 -> bcd_valid b = true -> bin2bcd (bcd2bin b) = b.
Proof.
  intros Hb Hv. destruct (bcd_valid_digits b Hb Hv) as [Hq Hr].
  rewrite bcd2bin_digits, u8_small by exact Hb.
  rewrite bin2bcd_digits by lia.
  replace ((10 * (b / 16) + b mod 16) / 10) with (b / 16)
    by (apply Z.div_unique with (r := b mod 16); lia).
  replace ((10 * (b / 16) + b mod 16) mod 10) with (b mod 16)
    by (apply Z.mod_unique with (q := b / 16); lia).
  pose proof (Z.div_mod b 16 ltac:(lia)). lia.
Qed.

Lemma bcd2bin_valid_range b :
  0 <= b < 256 -> bcd_valid b = true -> 0 <= bcd2bin b <= 99.
Proof.
  intros Hb Hv. destruct (bcd_valid_digits b Hb Hv) as [Hq Hr].
  rewrite bcd2bin_digits, u8_small by exact Hb. lia.
Qed.

Lemma bcd_valid_bin2bcd v : 0 <= v <= 99 -> bcd_valid (bin2bcd v) = true.
Proof.
  intros Hv. rewrite bin2bcd_digits by exact Hv.
  destruct (digits_range v 10) as [Hq Hr]; [lia | lia |].
  unfold bcd_valid. rewrite pack_div, pack_mod by lia.
  apply andb_true_iff. split; apply Z.leb_le; lia.
Qed.

(** The general form of the codec round trip. *)
Lemma decode_time_block uninit t :
  0 <= tm_sec t <= 79 -> 0 <= tm_min t <= 79 ->
  0 <= tm_hour t <= 99 -> 0 <= tm_mday t <= 99 ->
  0 <= tm_mon t <= 98 -> 0 <= tm_year t -> 0 <= tm_wday t <= 7 ->
  PCF85363.decode_time (time_block uninit t)
  = with_year t (tm_year t mod 100 + 100).
Proof.
  intros Hs Hmi Hh Hd Hmo Hy Hw.
  rewrite time_block_eq, decode_time_eq. unfold with_year.
  pose proof (Z.mod_pos_bound (tm_year t) 100 ltac:(lia)) as Hym.
  f_equal.
  - apply decode_masked; lia.
  - apply decode_masked; lia.
  - apply decode_plain; lia.
  - apply decode_plain; lia.
  - rewrite (s32_small (tm_mon t + 1)), u8_bin2bcd, bcd2bin_bin2bcd by lia.
    rewrite s32_pred by lia. lia.
  - rewrite Z.rem_mod_nonneg, decode_plain by lia. apply s32_small. lia.
  - rewrite land_7, u8_small by lia. apply Z.mod_small. lia.
Qed.

Lemma decode_fetch f :
  PCF85363.decode_time (fetch DT_100THS 8 f) =
  mk_rtc_time (digits (u8 (f DT_SECS) mod 128))
              (digits (u8 (f DT_MINUTES) mod 128))
              (digits (u8 (f DT_HOURS)))
              (digits (u8 (f DT_DAYS)))
              (digits (u8 (f DT_MONTHS)) - 1)
              (digits (u8 (f DT_YEARS)) + 100)
              (u8 (f DT_WEEKDAYS) mod 8).
Proof.
  change (fetch DT_100THS 8 f)
    with [u8 (f 0); u8 (f 1); u8 (f 2); u8 (f 3);
          u8 (f 4); u8 (f 5); u8 (f 6); u8 (f 7)].
  unfold DT_SECS, DT_MINUTES, DT_HOURS, DT_DAYS, DT_WEEKDAYS, DT_MONTHS, DT_YEARS.
  rewrite decode_time_eq. unfold digits.
  rewrite !u8_mask, !s32_bcd2bin, !u8_idem, land_7.
  assert (Hd : forall x, 0 <= 10 * (u8 x / 16) + u8 x mod 16 <= 165).
  { intros x. pose proof (bcd2bin_range x) as H.
    rewrite bcd2bin_digits in H. exact H. }
  f_equal.
  - rewrite u8_small; [reflexivity|].
    pose proof (Z.mod_pos_bound (u8 (f 1)) 128 ltac:(lia)); lia.
  - rewrite u8_small; [reflexivity|].
    pose proof (Z.mod_pos_bound (u8 (f 2)) 128 ltac:(lia)); lia.
  - rewrite bcd2bin_digits, u8_idem. apply s32_pred.
    specialize (Hd (f 6)). lia.
  - apply s32_small. specialize (Hd (f 7)). lia.
Qed.

(** X2: whatever the registers hold, a successful [read_time] returns
    fields within fixed bounds: second and minute 0..85, hour and day
    0..165, month -1..164 (a zero month register gives -1), year 100..265
    and weekday 0..7. *)
Theorem read_time_field_bounds (tm : rtc_time) (w : world) :
  ret_at w 0 = 0 ->
  let t := snd (fst (PCF85363.pcf85363_rtc_read_time tm w)) in
  0 <= tm_sec t <= 85 /\ 0 <= tm_min t <= 85
  /\ 0 <= tm_hour t <= 165 /\ 0 <= tm_mday t <= 165
  /\ -1 <= tm_mon t <= 164 /\ 100 <= tm_year t <= 265
  /\ 0 <= tm_wday t <= 7.
Proof.
  intros H0. cbv zeta. rewrite read_time_run. cbv zeta.
  rewrite (nonzero_0 _ H0). cbn [fst snd].
  rewrite decode_fetch. cbn [tm_sec tm_min tm_hour tm_mday tm_mon tm_year tm_wday].
  assert (Hd : forall x, 0 <= x < 256 -> 0 <= digits x <= 165).
  { intros x Hx. unfold digits.
    destruct (digits_range x 16) as [Hq Hr]; lia. }
  assert (Hm : forall x, 0 <= x < 128 -> 0 <= digits x <= 85).
  { intros x Hx. unfold digits.
    assert (0 <= x / 16 < 8)
      by (split; [apply Z.div_pos; lia | apply Z.div_lt_upper_bound; lia]).
    pose proof (Z.mod_pos_bound x 16 ltac:(lia)). lia. }
  pose proof (Hm _ (Z.mod_pos_bound (u8 (regs w DT_SECS)) 128 ltac:(lia))).
  pose proof (Hm _ (Z.mod_pos_bound (u8 (regs w DT_MINUTES)) 128 ltac:(lia))).
  pose proof (Hd _ (u8_range (regs w DT_HOURS))).
  pose proof (Hd _ (u8_range (regs w DT_DAYS))).
  pose proof (Hd _ (u8_range (regs w DT_MONTHS))).
  pose proof (Hd _ (u8_range (regs w DT_YEARS))).
  pose proof (Z.mod_pos_bound (u8 (regs w DT_WEEKDAYS)) 8 ltac:(lia)).
  lia.
Qed.

Lemma read_time_field_bounds_witness :
  -1 <= tm_mon (snd (fst (PCF85363.pcf85363_rtc_read_time sample_time
                            (boot (fun _ => 0) [])))) <= 164.
Proof.
  exact (proj1 (proj2 (proj2 (proj2 (proj2
      (read_time_field_bounds sample_time (boot (fun _ => 0) []) eq_refl)))))).
Defined.

(** X3: the decoded time does not depend on the fractional-second byte,
    on bit 7 of the second and minute registers, or on bits 3..7 of the
    weekday register. *)
Theorem decode_time_ignores_indicator_bits (b0 b1 b2 b3 b4 b5 b6 b7 : Z) :
  PCF85363.decode_time [b0; b1; b2; b3; b4; b5; b6; b7]
  = PCF85363.decode_time
      [0; Z.land b1 0x7F; Z.land b2 0x7F; b3; b4; Z.land b5 7; b6; b7].
Proof.
  rewrite !decode_time_eq.
  rewrite <- !Z.land_assoc. reflexivity.
Qed.

(** X4: registers to time to registers.  For a buffer whose BCD fields
    have decimal nibbles, with bit 7 of second and minute clear and a
    weekday below 8, encoding the decoded time gives the same seven
    date/time bytes back, after a zero fractional-second byte. *)
Theorem time_block_of_decoded_registers
        (uninit : nat -> Z) (b0 b1 b2 b3 b4 b5 b6 b7 : Z) :
  0 <= b1 < 128 -> 0 <= b2 < 128 -> 0 <= b3 < 256 -> 0 <= b4 < 256 ->
  0 <= b5 < 8 -> 0 <= b6 < 256 -> 0 <= b7 < 256 ->
  bcd_valid b1 = true -> bcd_valid b2 = true -> bcd_valid b3 = true ->
  bcd_valid b4 = true -> bcd_valid b6 = true -> bcd_valid b7 = true ->
  time_block uninit (PCF85363.decode_time [b0; b1; b2; b3; b4; b5; b6; b7])
  = [0; b1; b2; b3; b4; b5; b6; b7].
Proof.
  intros H1 H2 H3 H4 H5 H6 H7 V1 V2 V3 V4 V6 V7.
  rewrite decode_time_eq, time_block_eq.
  cbn [tm_sec tm_min tm_hour tm_mday tm_mon tm_year tm_wday].
  rewrite !u8_bin2bcd.
  rewrite !land_127, !(Z.mod_small _ 128), !(u8_small b1), !(u8_small b2) by lia.
  pose proof (bcd2bin_valid_range b1 ltac:(lia) V1).
  pose proof (bcd2bin_valid_range b2 ltac:(lia) V2).
  pose proof (bcd2bin_valid_range b3 H3 V3).
  pose proof (bcd2bin_valid_range b4 H4 V4).
  pose proof (bcd2bin_valid_range b6 H6 V6).
  pose proof (bcd2bin_valid_range b7 H7 V7).
  rewrite !(s32_small (bcd2bin _)) by lia.
  rewrite s32_pred by lia.
  replace (s32 (bcd2bin b6 - 1 + 1)) with (bcd2bin b6)
    by (rewrite s32_small; lia).
  rewrite (s32_small (bcd2bin b7 + 100)) by lia.
  replace (Z.rem (bcd2bin b7 + 100) 100) with (bcd2bin b7).
  2: { rewrite Z.rem_mod_nonneg by lia.
       apply Z.mod_unique with (q := 1); lia. }
  rewrite !bin2bcd_bcd2bin by (assumption || lia).
  rewrite land_7, (Z.mod_small b5 8), (u8_small b5) by lia.
  reflexivity.
Qed.

Lemma time_block_of_decoded_registers_witness :
  time_block zero_stack
    (PCF85363.decode_time [0x37; 0x59; 0x05; 0x09; 0x18; 1; 0x12; 0x23])
  = [0; 0x59; 0x05; 0x09; 0x18; 1; 0x12; 0x23].
Proof.
  apply (time_block_of_decoded_registers zero_stack);
    solve [lia | reflexivity].
Defined.

(** X5: for a time in the kernel's ranges (second, minute 0..59, hour
    0..23, day 1..31, month 0..11, year not negative) the encoded block has
    no BCD field with a nibble above 9; its fractional-second byte is 0,
    its month register holds 1..12 and bit 7 of its second register (the
    oscillator-stop flag) is clear. *)
Theorem time_block_is_valid_bcd (uninit : nat -> Z) (t : rtc_time) :
  0 <= tm_sec t <= 59 -> 0 <= tm_min t <= 59 -> 0 <= tm_hour t <= 23 ->
  1 <= tm_mday t <= 31 -> 0 <= tm_mon t <= 11 -> 0 <= tm_year t ->
  corrupt_fields (time_block uninit t) = false
  /\ array_get (time_block uninit t) DT_100THS = 0
  /\ 1 <= bcd2bin (array_get (time_block uninit t) DT_MONTHS) <= 12
  /\ Z.testbit (array_get (time_block uninit t) DT_SECS) 7 = false.
Proof.
  intros Hs Hmi Hh Hd Hmo Hy.
  rewrite time_block_eq. unfold corrupt_fields.
  unfold DT_100THS, DT_SECS, DT_MINUTES, DT_HOURS, DT_DAYS, DT_MONTHS, DT_YEARS.
  match goal with
  | |- context [array_get ?l 1] =>
      change (array_get l 0) with (nth 0 l 0);
      change (array_get l 1) with (nth 1 l 0);
      change (array_get l 2) with (nth 2 l 0);
      change (array_get l 3) with (nth 3 l 0);
      change (array_get l 4) with (nth 4 l 0);
      change (array_get l 6) with (nth 6 l 0);
      change (array_get l 7) with (nth 7 l 0)
  end.
  cbn [nth].
  rewrite !u8_bin2bcd, (s32_small (tm_mon t + 1)) by lia.
  rewrite Z.rem_mod_nonneg by lia.
  pose proof (Z.mod_pos_bound (tm_year t) 100 ltac:(lia)) as Hym.
  rewrite !mask_bin2bcd by lia.
  rewrite !bcd_valid_bin2bcd by lia.
  rewrite bcd2bin_bin2bcd by lia.
  repeat split; try lia.
  rewrite <- (mask_bin2bcd (tm_sec t)) by lia.
  rewrite Z.land_spec. apply andb_false_r.
Qed.

Lemma time_block_is_valid_bcd_witness :
  corrupt_fields (time_block zero_stack rtc_sample) = false.
Proof.
  refine (proj1 (time_block_is_valid_bcd zero_stack rtc_sample _ _ _ _ _ _));
    simpl; lia.
Defined.

(** X6: [set_time] keeps no century: a year and the year 100 later are
    encoded to the same block. *)
Theorem time_block_drops_century (uninit : nat -> Z) (t : rtc_time) :
  0 <= tm_year t ->
  time_block uninit (with_year t (tm_year t + 100)) = time_block uninit t.
Proof.
  intros Hy. rewrite !time_block_eq. unfold with_year.
  cbn [tm_sec tm_min tm_hour tm_mday tm_mon tm_year tm_wday].
  rewrite !Z.rem_mod_nonneg by lia.
  replace ((tm_year t + 100) mod 100) with (tm_year t mod 100); [reflexivity|].
  rewrite <- (Z.mod_add (tm_year t) 1 100) by lia. f_equal; lia.
Qed.

Lemma time_block_drops_century_witness :
  time_block zero_stack (with_year sample_time 123) = time_block zero_stack sample_time.
Proof.
  apply (time_block_drops_century zero_stack sample_time). simpl. lia.
Defined.

(** X7: when its three writes succeed, [set_time] leaves the encoded
    block in registers 0x00-0x07, 0 in the stop register and [RESET_CPR]
    in the reset register, and no register other than 0x00-0x08, 0x2E
    and 0x2F is changed. *)
Theorem set_time_success_frame (uninit : nat -> Z) (tm : rtc_time) (w : world) :
  ret_at w 0 = 0 -> ret_at w 1 = 0 -> ret_at w 2 = 0 ->
  let w' := snd (PCF85363.pcf85363_rtc_set_time uninit tm w) in
  fetch DT_100THS 8 (regs w') = time_block uninit tm
  /\ regs w' CTRL_STOP_EN = 0
  /\ regs w' CTRL_RESETS = RESET_CPR
  /\ (forall reg, reg < 0 \/ (DT_SECOND_ALM1 < reg /\ reg <> CTRL_STOP_EN
                              /\ reg <> CTRL_RESETS) ->
        regs w' reg = regs w reg).
Proof.
  intros H0 H1 H2. cbv zeta. rewrite set_time_run. cbv zeta.
  rewrite (nonzero_0 _ H0), (nonzero_0 _ H1), (nonzero_0 _ H2). cbn [snd regs].
  repeat split.
  - rewrite fetch_upd_outside by (unfold CTRL_STOP_EN, DT_100THS; lia).
    change 8%nat with (List.length (time_block uninit tm)).
    rewrite fetch_store. apply time_block_bytes.
  - intros reg Hreg. unfold DT_SECOND_ALM1, CTRL_STOP_EN, CTRL_RESETS in Hreg.
    rewrite upd_other by (unfold CTRL_STOP_EN; lia).
    assert (store DT_100THS (time_block uninit tm ++ [uninit 10%nat])
              (store CTRL_STOP_EN [STOP_EN_STOP; RESET_CPR] (regs w)) reg
            = store CTRL_STOP_EN [STOP_EN_STOP; RESET_CPR] (regs w) reg) as ->.
    { destruct Hreg as [Hneg|Hbig].
      - apply store_below. unfold DT_100THS. lia.
      - apply store_above. rewrite time_block_eq. unfold DT_100THS.
        cbn [List.length app]. lia. }
    cbn [store]. rewrite !upd_other by (unfold CTRL_STOP_EN; lia). reflexivity.
Qed.

Lemma set_time_success_frame_witness :
  regs (snd (PCF85363.pcf85363_rtc_set_time zero_stack sample_time
               (boot (fun _ => 0x55) []))) DT_ALARM_EN = 0x55.
Proof.
  refine (proj2 (proj2 (proj2
     (set_time_success_frame zero_stack sample_time (boot (fun _ => 0x55) [])
        eq_refl eq_refl eq_refl))) DT_ALARM_EN _).
  right. unfold DT_SECOND_ALM1, DT_ALARM_EN, CTRL_STOP_EN, CTRL_RESETS. lia.
Defined.

(** X8: [set_time], in both files, makes no transport call after the
    first one that fails: the time write is attempted only after the
    stop/reset write succeeded, the resume write only after the time
    write succeeded, and exactly one scripted return code is consumed per
    call made. *)
Theorem set_time_stops_at_first_failure
        (uninit : nat -> Z) (tm : rtc_time) (w : world) :
  let c1 := Regmap_bulk_write CTRL_STOP_EN [STOP_EN_STOP; RESET_CPR] in
  let c2 := Regmap_bulk_write DT_100THS (time_block uninit tm ++ [uninit 10%nat]) in
  let c3 := Regmap_write CTRL_STOP_EN 0 in
  let expected :=
    c1 :: (if nonzero (ret_at w 0) then []
           else c2 :: (if nonzero (ret_at w 1) then [] else [c3])) in
  filter is_regmap
    (calls_since w (snd (PCF85363.pcf85363_rtc_set_time uninit tm w))) = expected
  /\ filter is_regmap
       (calls_since w (snd (PCF85263.pcf85263_rtc_set_time uninit tm w))) = expected
  /\ rets (snd (PCF85363.pcf85363_rtc_set_time uninit tm w))
     = skipn (List.length expected) (rets w).
Proof.
  cbv zeta. rewrite set_time_run, set_time_run_263. cbv zeta.
  destruct (nonzero (ret_at w 0)); [|destruct (nonzero (ret_at w 1))];
    cbn [snd rets]; rewrite !calls_since_app; repeat split;
    destruct (rets w) as [|a [|b [|c l]]]; reflexivity.
Qed.

(** X9: on the peripheral, in both files, a [read_time] that follows a
    successful [set_time] of a time in the kernel's ranges (month 0..11,
    year 100..199) returns 0 and exactly that time. *)
Theorem read_time_returns_what_set_time_wrote
        (uninit : nat -> Z) (t tm0 : rtc_time) (w : world) :
  ret_at w 0 = 0 -> ret_at w 1 = 0 -> ret_at w 2 = 0 -> ret_at w 3 = 0 ->
  0 <= tm_sec t <= 59 -> 0 <= tm_min t <= 59 -> 0 <= tm_hour t <= 23 ->
  1 <= tm_mday t <= 31 -> 0 <= tm_mon t <= 11 -> 100 <= tm_year t <= 199 ->
  0 <= tm_wday t <= 6 ->
  let w1 := snd (PCF85363.pcf85363_rtc_set_time uninit t w) in
  fst (PCF85363.pcf85363_rtc_read_time tm0 w1) = (0, t)
  /\ fst (PCF85263.pcf85263_rtc_read_time tm0
            (snd (PCF85263.pcf85263_rtc_set_time uninit t w))) = (0, t).
Proof.
  intros H0 H1 H2 H3 Hs Hmi Hh Hd Hmo Hy Hw. cbv zeta.
  assert (Hdec : PCF85363.decode_time (time_block uninit t) = t).
  { rewrite decode_time_block by lia. destruct t as [s mi h d mo y wd].
    unfold with_year. cbn [tm_sec tm_min tm_hour tm_mday tm_mon tm_year tm_wday] in *.
    f_equal.
    assert (y - 100 = y mod 100) by (apply Z.mod_unique with (q := 1); lia).
    lia. }
  rewrite set_time_run, set_time_run_263. cbv zeta.
  rewrite (nonzero_0 _ H0), (nonzero_0 _ H1), (nonzero_0 _ H2). cbn [snd].
  rewrite read_time_run, read_time_run_263. cbv zeta. cbn [regs rets].
  unfold ret_at in *. cbn [rets]. rewrite !nth_tl, H3.
  change (nonzero 0) with false. cbv iota. cbn [fst].
  change (PCF85263.decode_time) with (PCF85363.decode_time).
  rewrite fetch_upd_outside by (unfold CTRL_STOP_EN, DT_100THS; lia).
  change 8%nat with (List.length (time_block uninit t)).
  rewrite fetch_store, time_block_bytes, Hdec. split; reflexivity.
Qed.

Lemma read_time_returns_what_set_time_wrote_witness :
  fst (PCF85363.pcf85363_rtc_read_time sample_time
         (snd (PCF85363.pcf85363_rtc_set_time zero_stack rtc_sample
                 (boot (fun _ => 0) []))))
  = (0, rtc_sample).
Proof.
  refine (proj1 (read_time_returns_what_set_time_wrote zero_stack rtc_sample
                   sample_time (boot (fun _ => 0) [])
                   eq_refl eq_refl eq_refl eq_refl _ _ _ _ _ _ _));
    simpl; lia.
Defined.

(** X1: [read_time], in both files, never changes a register: in every
    world the register file is left as it was and the only transport call
    is one bulk read of 8 bytes at [DT_100THS]; the last call it logs is
    [dev_err] with the transport's code when that read fails, and the
    read itself otherwise. *)
Theorem read_time_is_read_only (tm : rtc_time) (w : world) :
  let run := PCF85363.pcf85363_rtc_read_time tm w in
  let run' := PCF85263.pcf85263_rtc_read_time tm w in
  regs (snd run) = regs w /\ regs (snd run') = regs w
  /\ filter is_regmap (calls_since w (snd run)) = [Regmap_bulk_read DT_100THS 8]
  /\ filter is_regmap (calls_since w (snd run')) = [Regmap_bulk_read DT_100THS 8]
  /\ last (calls_since w (snd run)) (Printk "")
     = (if nonzero (ret_at w 0) then Dev_err (ret_at w 0)
        else Regmap_bulk_read DT_100THS 8)
  /\ last (calls_since w (snd run')) (Printk "")
     = (if nonzero (ret_at w 0) then Dev_err (ret_at w 0)
        else Regmap_bulk_read DT_100THS 8).
Proof.
  cbv zeta. rewrite read_time_run, read_time_run_263. cbv zeta.
  destruct (nonzero (ret_at w 0)); cbn [snd regs];
    rewrite !calls_since_app; repeat split.
Qed.



Ltac reg_neq :=
  unfold DT_ALARM_EN, CTRL_INTA_EN, CTRL_FLAGS, DT_SECOND_ALM1 in *; lia.

(** X10: in every world, the alarm-enable function changes nothing but
    bits 0..4 of [DT_ALARM_EN], bit 4 of [CTRL_INTA_EN] and bit 5 of
    [CTRL_FLAGS]: the alarm-2 enable bits, the other interrupt enables,
    the other status flags and every other register keep their values. *)
Theorem alarm_irq_enable_frame (enabled : Z) (w : world) :
  let w' := snd (PCF85363._pcf85363_rtc_alarm_irq_enable enabled w) in
  (forall reg, reg <> DT_ALARM_EN -> reg <> CTRL_INTA_EN -> reg <> CTRL_FLAGS ->
     regs w' reg = regs w reg)
  /\ (forall i, 5 <= i < 8 ->
        Z.testbit (regs w' DT_ALARM_EN) i = Z.testbit (regs w DT_ALARM_EN) i)
  /\ (forall i, 0 <= i < 8 -> i <> 4 ->
        Z.testbit (regs w' CTRL_INTA_EN) i = Z.testbit (regs w CTRL_INTA_EN) i)
  /\ (forall i, 0 <= i < 8 -> i <> 5 ->
        Z.testbit (regs w' CTRL_FLAGS) i = Z.testbit (regs w CTRL_FLAGS) i).
Proof.
  cbv zeta. rewrite alarm_irq_enable_run. cbv zeta.
  assert (B31 : forall x v i, 5 <= i < 8 ->
            Z.testbit (u8 (Z.lor (Z.land (u8 x) (Z.lnot 31)) (Z.land v 31))) i
            = Z.testbit x i).
  { intros x v i Hi. rewrite update_bits_testbit, testbit_31 by lia.
    destruct (Z.ltb_spec i 5); [lia | reflexivity]. }
  assert (B16 : forall x v i, 0 <= i < 8 -> i <> 4 ->
            Z.testbit (u8 (Z.lor (Z.land (u8 x) (Z.lnot 16)) (Z.land v 16))) i
            = Z.testbit x i).
  { intros x v i Hi Hne. rewrite update_bits_testbit, testbit_16 by lia.
    destruct (Z.eqb_spec 4 i); [lia | reflexivity]. }
  assert (B32 : forall x v i, 0 <= i < 8 -> i <> 5 ->
            Z.testbit (u8 (Z.lor (Z.land (u8 x) (Z.lnot 32)) (Z.land v 32))) i
            = Z.testbit x i).
  { intros x v i Hi Hne. rewrite update_bits_testbit, testbit_32 by lia.
    destruct (Z.eqb_spec 5 i); [lia | reflexivity]. }
  destruct (nonzero (ret_at w 0)); [|destruct (nonzero (ret_at w 1));
    [|destruct (nonzero enabled); [|destruct (nonzero (ret_at w 2))]]];
    cbn [snd regs]; repeat split; intros; try reflexivity;
    repeat first [ rewrite upd_same
                 | rewrite upd_other by (assumption || reg_neq)
                 | rewrite B31 by assumption
                 | rewrite B16 by assumption
                 | rewrite B32 by assumption ];
    reflexivity.
Qed.

Lemma alarm_irq_enable_frame_witness :
  Z.testbit
    (regs (snd (PCF85363._pcf85363_rtc_alarm_irq_enable 0
                  (boot (fun _ => 0xff) []))) DT_ALARM_EN) 7 = true.
Proof.
  refine (proj1 (proj2 (alarm_irq_enable_frame 0 (boot (fun _ => 0xff) []))) 7 _).
  lia.
Defined.

(** X11: when the alarm-enable function returns 0, the five alarm-1
    match-enable bits and the alarm-1 interrupt-enable bit all equal the
    requested state. *)
Theorem alarm_irq_enable_sets_target (enabled : Z) (w : world) :
  fst (PCF85363._pcf85363_rtc_alarm_irq_enable enabled w) = 0 ->
  let w' := snd (PCF85363._pcf85363_rtc_alarm_irq_enable enabled w) in
  (forall i, 0 <= i < 5 -> Z.testbit (regs w' DT_ALARM_EN) i = nonzero enabled)
  /\ Z.testbit (regs w' CTRL_INTA_EN) 4 = nonzero enabled.
Proof.
  cbv zeta. rewrite alarm_irq_enable_run. cbv zeta.
  assert (T31 : forall i, 0 <= i < 5 ->
            Z.testbit (if nonzero enabled then 31 else 0) i = nonzero enabled).
  { intros i Hi. destruct (nonzero enabled); [|apply Z.bits_0].
    rewrite testbit_31 by lia. destruct (Z.ltb_spec i 5); [reflexivity | lia]. }
  assert (T16 : Z.testbit (if nonzero enabled then 16 else 0) 4 = nonzero enabled).
  { destruct (nonzero enabled); reflexivity. }
  destruct (nonzero (ret_at w 0)) eqn:E0; cbn [fst].
  { intros Hok. apply nonzero_true in E0. contradiction. }
  destruct (nonzero (ret_at w 1)) eqn:E1; cbn [fst].
  { intros Hok. apply nonzero_true in E1. contradiction. }
  assert (G : forall f,
    (forall i, 0 <= i < 5 ->
       Z.testbit (upd CTRL_INTA_EN f
          (upd DT_ALARM_EN
             (Z.lor (Z.land (u8 (regs w DT_ALARM_EN)) (Z.lnot 31))
                    (Z.land (if nonzero enabled then 31 else 0) 31)) (regs w))
          DT_ALARM_EN) i = nonzero enabled)).
  { intros f i Hi. rewrite upd_other by reg_neq.
    rewrite upd_same, update_bits_testbit, testbit_31 by lia.
    destruct (Z.ltb_spec i 5); [apply T31; lia | lia]. }
  assert (G2 : forall g x,
    Z.testbit (upd CTRL_INTA_EN
       (Z.lor (Z.land (u8 x) (Z.lnot 16))
              (Z.land (if nonzero enabled then 16 else 0) 16)) g CTRL_INTA_EN) 4
    = nonzero enabled).
  { intros g x. rewrite upd_same, update_bits_testbit by lia. exact T16. }
  destruct (nonzero enabled) eqn:En; cbn [fst snd regs]; intros Hok.
  { split; [intros i Hi; apply G; exact Hi | apply G2]. }
  rewrite (nonzero_0 _ Hok). split.
  - intros i Hi. rewrite (upd_other CTRL_FLAGS) by reg_neq. apply G; exact Hi.
  - rewrite (upd_other CTRL_FLAGS) by reg_neq. apply G2.
Qed.

Lemma alarm_irq_enable_sets_target_witness :
  Z.testbit
    (regs (snd (PCF85363._pcf85363_rtc_alarm_irq_enable 1
                  (boot (fun _ => 0) []))) CTRL_INTA_EN) 4 = true.
Proof.
  exact (proj2 (alarm_irq_enable_sets_target 1 (boot (fun _ => 0) []) eq_refl)).
Defined.

Lemma read_alarm_run alrm w :
  PCF85363.pcf85363_rtc_read_alarm alrm w =
  let p := Printk "rtc read alarm pcf85363 function has been called.\n" in
  let c1 := Regmap_bulk_read DT_SECOND_ALM1 5 in
  let c2 := Regmap_read CTRL_INTA_EN in
  let tm := alarm_time_of (fetch DT_SECOND_ALM1 5 (regs w)) (fst alrm) in
  if nonzero (ret_at w 0) then
    ((ret_at w 0, alrm),
     mk_world (regs w) (tl (rets w)) (trace w ++ [p; c1]))
  else if nonzero (ret_at w 1) then
    ((ret_at w 1, (tm, snd alrm)),
     mk_world (regs w) (tl (tl (rets w))) (trace w ++ [p; c1; c2]))
  else
    ((0, (tm, if nonzero (Z.land (u8 (regs w CTRL_INTA_EN)) INT_A1IE)
              then 1 else 0)),
     mk_world (regs w) (tl (tl (rets w))) (trace w ++ [p; c1; c2])).
Proof.
  unfold PCF85363.pcf85363_rtc_read_alarm. cbv zeta.
  step. split_ret w 0%nat; [reflexivity|].
  step. split_ret w 1%nat; reflexivity.
Qed.

(** X12: [read_alarm] writes no register.  It returns the code of the
    first failing read; it reports [enabled] as bit 4 of [CTRL_INTA_EN]
    (1 or 0) when both reads succeed and leaves it untouched otherwise;
    once the bulk read has succeeded the five time fields are decoded
    from registers 0x08-0x0C (month minus one), even if the second read
    then fails; year and weekday are never touched. *)
Theorem read_alarm_reports_interrupt_enable (alrm : rtc_time * Z) (w : world) :
  let run := PCF85363.pcf85363_rtc_read_alarm alrm w in
  let out := snd (fst run) in
  let b := fun i => u8 (regs w i) in
  regs (snd run) = regs w
  /\ register_writes (calls_since w (snd run)) = []
  /\ fst (fst run) = (if nonzero (ret_at w 0) then ret_at w 0 else ret_at w 1)
  /\ snd out =
       (if nonzero (ret_at w 0) || nonzero (ret_at w 1) then snd alrm
        else if Z.testbit (regs w CTRL_INTA_EN) 4 then 1 else 0)
  /\ fst out =
       (if nonzero (ret_at w 0) then fst alrm
        else mk_rtc_time (digits (b DT_SECOND_ALM1)) (digits (b DT_MINUTE_ALM1))
                         (digits (b DT_HOUR_ALM1)) (digits (b DT_DAY_ALM1))
                         (digits (b DT_MONTH_ALM1) - 1)
                         (tm_year (fst alrm)) (tm_wday (fst alrm))).
Proof.
  cbv zeta. rewrite read_alarm_run. cbv zeta.
  destruct (nonzero (ret_at w 0)) eqn:E0; cbn [orb fst snd regs].
  { rewrite calls_since_app. repeat split. }
  assert (Htm : alarm_time_of (fetch DT_SECOND_ALM1 5 (regs w)) (fst alrm)
                = mk_rtc_time (digits (u8 (regs w DT_SECOND_ALM1)))
                    (digits (u8 (regs w DT_MINUTE_ALM1)))
                    (digits (u8 (regs w DT_HOUR_ALM1)))
                    (digits (u8 (regs w DT_DAY_ALM1)))
                    (digits (u8 (regs w DT_MONTH_ALM1)) - 1)
                    (tm_year (fst alrm)) (tm_wday (fst alrm))).
  { change (fetch DT_SECOND_ALM1 5 (regs w))
      with [u8 (regs w 8); u8 (regs w 9); u8 (regs w 10); u8 (regs w 11);
            u8 (regs w 12)].
    unfold alarm_time_of, digits, DT_SECOND_ALM1, DT_MINUTE_ALM1, DT_HOUR_ALM1,
      DT_DAY_ALM1, DT_MONTH_ALM1.
    change (array_get ?l 0) with (u8 (regs w 8)).
    change (array_get ?l 1) with (u8 (regs w 9)).
    change (array_get ?l 2) with (u8 (regs w 10)).
    change (array_get ?l 3) with (u8 (regs w 11)).
    change (array_get ?l 4) with (u8 (regs w 12)).
    rewrite !s32_bcd2bin, !u8_idem. f_equal.
    rewrite bcd2bin_digits, u8_idem. apply s32_pred.
    pose proof (bcd2bin_range (regs w 12)) as H.
    rewrite bcd2bin_digits in H. lia. }
  destruct (nonzero (ret_at w 1)) eqn:E1; cbn [fst snd regs];
    rewrite calls_since_app, Htm; repeat split.
  - symmetry. apply nonzero_false, E1.
  - change INT_A1IE with (2 ^ 4).
    rewrite nonzero_land_bit, u8_testbit by lia. reflexivity.
Qed.

Lemma set_alarm_run alrm w :
  PCF85363.pcf85363_rtc_set_alarm alrm w =
  let w0 := mk_world (regs w) (rets w)
              (trace w ++ [Printk "set rtc alarm pcf85363 function has been called.\n"]) in
  let d := PCF85363._pcf85363_rtc_alarm_irq_enable 0 w0 in
  if nonzero (fst d) then d
  else
    let b := regmap_bulk_write DT_SECOND_ALM1 (alarm_bytes (fst alrm)) (snd d) in
    if nonzero (fst b) then b
    else PCF85363._pcf85363_rtc_alarm_irq_enable (snd alrm) (snd b).
Proof.
  unfold PCF85363.pcf85363_rtc_set_alarm. cbv zeta.
  rewrite bind_run, printk_run. cbn [fst snd].
  rewrite bind_run.
  destruct (PCF85363._pcf85363_rtc_alarm_irq_enable 0 _) as [r1 w1] eqn:Ed.
  cbn [fst snd]. destruct (nonzero r1); [reflexivity|].
  rewrite bind_run. fold (alarm_bytes (fst alrm)).
  destruct (regmap_bulk_write DT_SECOND_ALM1 (alarm_bytes (fst alrm)) w1) as [r2 w2].
  cbn [fst snd]. destruct (nonzero r2); reflexivity.
Qed.

Ltac norm_rets :=
  unfold ret_at; cbn [fst snd regs rets trace]; rewrite ?nth_tl;
  rewrite <- ?app_assoc; cbn [app].

Ltac split_nth w i :=
  let E := fresh "E" in
  destruct (nonzero (nth i (rets w) 0)) eqn:E; cbn [negb orb andb fst snd];
  rewrite ?E; cbn [negb orb andb fst snd].

(** X13: the transport calls of [set_alarm], for every script of return
    codes: clear the match enables, clear the interrupt enable, clear the
    status flag, write the five match fields, then write the match
    enables and the interrupt enable to the requested state, with a last
    status-flag clear when that state is disabled.  The sequence stops at
    the first failing call, whose code is returned; so the match fields
    are written only after the alarm has been switched off. *)
Theorem set_alarm_call_sequence (alrm : rtc_time * Z) (w : world) :
  let run := PCF85363.pcf85363_rtc_set_alarm alrm w in
  let r := fun i => ret_at w i in
  let off1 := Regmap_update_bits DT_ALARM_EN 0x1f 0 in
  let off2 := Regmap_update_bits CTRL_INTA_EN INT_A1IE 0 in
  let ack := Regmap_update_bits CTRL_FLAGS FLAGS_A1F 0 in
  let fields := Regmap_bulk_write DT_SECOND_ALM1 (alarm_bytes (fst alrm)) in
  let on1 := Regmap_update_bits DT_ALARM_EN 0x1f
               (if nonzero (snd alrm) then 0x1f else 0) in
  let on2 := Regmap_update_bits CTRL_INTA_EN INT_A1IE
               (if nonzero (snd alrm) then INT_A1IE else 0) in
  filter is_regmap (calls_since w (snd run)) =
    off1 :: (if nonzero (r 0%nat) then [] else
    off2 :: (if nonzero (r 1%nat) then [] else
    ack :: (if nonzero (r 2%nat) then [] else
    fields :: (if nonzero (r 3%nat) then [] else
    on1 :: (if nonzero (r 4%nat) then [] else
    on2 :: (if nonzero (r 5%nat) || nonzero (snd alrm) then [] else [ack]))))))
  /\ fst run =
       (if nonzero (r 0%nat) then r 0%nat else
        if nonzero (r 1%nat) then r 1%nat else
        if nonzero (r 2%nat) then r 2%nat else
        if nonzero (r 3%nat) then r 3%nat else
        if nonzero (r 4%nat) then r 4%nat else
        if nonzero (r 5%nat) || nonzero (snd alrm) then r 5%nat else r 6%nat).
Proof.
  cbv zeta. rewrite set_alarm_run. cbv zeta.
  rewrite alarm_irq_enable_run. cbv zeta.
  change (nonzero 0) with false. cbv iota. norm_rets.
  split_nth w 0%nat. { rewrite calls_since_app. split; reflexivity. }
  split_nth w 1%nat. { rewrite calls_since_app. split; reflexivity. }
  split_nth w 2%nat. { rewrite calls_since_app. split; reflexivity. }
  rewrite regmap_bulk_write_run. norm_rets.
  split_nth w 3%nat. { rewrite calls_since_app. split; reflexivity. }
  rewrite alarm_irq_enable_run. cbv zeta. norm_rets.
  split_nth w 4%nat. { rewrite calls_since_app. split; reflexivity. }
  split_nth w 5%nat. { rewrite calls_since_app. split; reflexivity. }
  destruct (nonzero (snd alrm)); cbn [fst snd trace];
    rewrite calls_since_app; split; reflexivity.
Qed.

Lemma fetch_store_exact d reg f :
  fetch reg (List.length d) (store reg d f) = map u8 d.
Proof. rewrite <- (app_nil_r d) at 2. apply fetch_store. Qed.

Lemma alarm_time_of_bytes tm old :
  0 <= tm_sec tm <= 99 -> 0 <= tm_min tm <= 99 -> 0 <= tm_hour tm <= 99 ->
  0 <= tm_mday tm <= 99 -> 0 <= tm_mon tm <= 98 ->
  alarm_time_of (map u8 (alarm_bytes tm)) old
  = mk_rtc_time (tm_sec tm) (tm_min tm) (tm_hour tm) (tm_mday tm) (tm_mon tm)
                (tm_year old) (tm_wday old).
Proof.
  intros Hs Hmi Hh Hd Hmo. unfold alarm_bytes, alarm_time_of. cbn [map].
  change (array_get ?l 0) with (u8 (bin2bcd (tm_sec tm))).
  change (array_get ?l 1) with (u8 (bin2bcd (tm_min tm))).
  change (array_get ?l 2) with (u8 (bin2bcd (tm_hour tm))).
  change (array_get ?l 3) with (u8 (bin2bcd (tm_mday tm))).
  change (array_get ?l 4) with (u8 (bin2bcd (s32 (tm_mon tm + 1)))).
  rewrite !decode_plain by lia.
  rewrite (s32_small (tm_mon tm + 1)), u8_bin2bcd, bcd2bin_bin2bcd by lia.
  rewrite s32_pred by lia. f_equal. lia.
Qed.

(** X15: with a transport that succeeds, [read_alarm] after [set_alarm]
    returns 0, the five alarm fields that were set (each 0..99, month
    0..98) and [enabled] as 1 or 0 according to the requested state. *)
Theorem read_alarm_returns_what_set_alarm_wrote
        (alrm alrm0 : rtc_time * Z) (f : Z -> Z) :
  0 <= tm_sec (fst alrm) <= 99 -> 0 <= tm_min (fst alrm) <= 99 ->
  0 <= tm_hour (fst alrm) <= 99 -> 0 <= tm_mday (fst alrm) <= 99 ->
  0 <= tm_mon (fst alrm) <= 98 ->
  let w1 := snd (PCF85363.pcf85363_rtc_set_alarm alrm (boot f [])) in
  fst (PCF85363.pcf85363_rtc_read_alarm alrm0 w1)
  = (0, (mk_rtc_time (tm_sec (fst alrm)) (tm_min (fst alrm)) (tm_hour (fst alrm))
                     (tm_mday (fst alrm)) (tm_mon (fst alrm))
                     (tm_year (fst alrm0)) (tm_wday (fst alrm0)),
         if nonzero (snd alrm) then 1 else 0)).
Proof.
  intros Hs Hmi Hh Hd Hmo. cbv zeta.
  rewrite set_alarm_run. cbv zeta. rewrite alarm_irq_enable_run. cbv zeta.
  unfold boot. norm_rets. cbn [nth tl]. change (nonzero 0) with false.
  cbv iota. cbn [fst snd].
  rewrite regmap_bulk_write_run. norm_rets. cbn [nth tl].
  change (nonzero 0) with false. cbv iota. cbn [fst snd].
  rewrite alarm_irq_enable_run. cbv zeta. norm_rets. cbn [nth tl].
  change (nonzero 0) with false. cbv iota.
  destruct (nonzero (snd alrm)) eqn:En; cbn [fst snd];
    rewrite read_alarm_run; cbv zeta; norm_rets; cbn [nth tl];
    change (nonzero 0) with false; cbv iota; cbn [fst];
    rewrite !fetch_upd_outside
      by (unfold DT_SECOND_ALM1, DT_ALARM_EN, CTRL_INTA_EN, CTRL_FLAGS; lia);
    change 5%nat with (List.length (alarm_bytes (fst alrm)));
    rewrite fetch_store_exact, alarm_time_of_bytes by assumption;
    rewrite ?(upd_other CTRL_FLAGS) by reg_neq;
    rewrite upd_same; change INT_A1IE with (2 ^ 4);
    rewrite nonzero_land_bit, u8_testbit, update_bits_testbit by lia;
    reflexivity.
Qed.

Lemma read_alarm_returns_what_set_alarm_wrote_witness :
  fst (PCF85363.pcf85363_rtc_read_alarm (sample_time, 0)
         (snd (PCF85363.pcf85363_rtc_set_alarm (mk_rtc_time 0 30 7 1 0 0 0, 1)
                 (boot (fun _ => 0) []))))
  = (0, (mk_rtc_time 0 30 7 1 0 23 1, 1)).
Proof.
  apply (read_alarm_returns_what_set_alarm_wrote
           (mk_rtc_time 0 30 7 1 0 0 0, 1) (sample_time, 0) (fun _ => 0));
    simpl; lia.
Defined.

(** X14: when the three disable calls succeed and the match-field write
    fails, [set_alarm] returns that write's code and the alarm is left
    switched off: match enables, interrupt enable and status flag are all
    clear. *)
Theorem set_alarm_field_write_failure_leaves_alarm_off
        (alrm : rtc_time * Z) (w : world) :
  ret_at w 0 = 0 -> ret_at w 1 = 0 -> ret_at w 2 = 0 -> ret_at w 3 <> 0 ->
  let run := PCF85363.pcf85363_rtc_set_alarm alrm w in
  fst run = ret_at w 3
  /\ (forall i, 0 <= i < 5 -> Z.testbit (regs (snd run) DT_ALARM_EN) i = false)
  /\ Z.testbit (regs (snd run) CTRL_INTA_EN) 4 = false
  /\ Z.testbit (regs (snd run) CTRL_FLAGS) 5 = false.
Proof.
  intros H0 H1 H2 H3. cbv zeta.
  rewrite set_alarm_run. cbv zeta. rewrite alarm_irq_enable_run. cbv zeta.
  change (nonzero 0) with false. cbv iota.
  unfold ret_at in *. cbn [fst snd regs rets trace]. rewrite ?nth_tl.
  rewrite (nonzero_0 _ H0), (nonzero_0 _ H1), (nonzero_0 _ H2). cbn [fst snd].
  rewrite (nonzero_0 _ H2). cbn [fst snd].
  rewrite regmap_bulk_write_run.
  unfold ret_at. cbn [fst snd regs rets trace]. rewrite ?nth_tl.
  assert (nonzero (nth 3 (rets w) 0) = true) as E3.
  { unfold nonzero. destruct (Z.eqb_spec (nth 3 (rets w) 0) 0);
      [contradiction | reflexivity]. }
  rewrite E3. cbn [fst snd regs]. repeat split.
  - intros i Hi. rewrite !upd_other by reg_neq.
    rewrite upd_same, update_bits_testbit, testbit_31 by lia.
    destruct (Z.ltb_spec i 5); [apply Z.bits_0 | lia].
  - rewrite upd_other by reg_neq. rewrite upd_same, update_bits_testbit by lia.
    reflexivity.
  - rewrite upd_same, update_bits_testbit by lia. reflexivity.
Qed.

Lemma set_alarm_field_write_failure_leaves_alarm_off_witness :
  Z.testbit
    (regs (snd (PCF85363.pcf85363_rtc_set_alarm (sample_time, 1)
                  (boot (fun _ => 0xff) [0; 0; 0; -5]))) CTRL_INTA_EN) 4 = false.
Proof.
  refine (proj1 (proj2 (proj2
    (set_alarm_field_write_failure_leaves_alarm_off (sample_time, 1)
       (boot (fun _ => 0xff) [0; 0; 0; -5]) eq_refl eq_refl eq_refl _)))).
  discriminate.
Defined.

(** X16: the interrupt handler notifies the RTC core exactly when the
    status read succeeded and showed the alarm-1 flag; the notification
    (alarm interrupt, [RTC_IRQF | RTC_AF]) is made once, before the flag
    is cleared, and [IRQ_HANDLED] is returned exactly in that case,
    whatever the transport answers to the clearing write. *)
Theorem handle_irq_raises_event_before_ack (w : world) :
  let run := PCF85363.pcf85363_rtc_handle_irq w in
  let fired := negb (nonzero (ret_at w 0)) && Z.testbit (regs w CTRL_FLAGS) 5 in
  calls_since w (snd run) =
    Printk "irq handle pcf85363 function has been called.\n"
    :: Regmap_read CTRL_FLAGS
    :: (if fired
        then [ Rtc_update_irq 1 (Z.lor PCF85363.RTC_IRQF PCF85363.RTC_AF);
               Regmap_update_bits CTRL_FLAGS FLAGS_A1F 0 ]
        else [])
  /\ (fst run = PCF85363.IRQ_HANDLED <-> fired = true)
  /\ List.length (filter is_rtc_event (calls_since w (snd run)))
     = (if fired then 1%nat else 0%nat).
Proof.
  cbv zeta. rewrite handle_irq_run. cbv zeta.
  change 32 with (2 ^ 5). rewrite nonzero_land_bit, u8_testbit by lia.
  destruct (nonzero (ret_at w 0)); cbn [negb andb fst snd].
  { rewrite calls_since_app. repeat split; discriminate. }
  destruct (Z.testbit (regs w CTRL_FLAGS) 5); cbn [fst snd];
    rewrite calls_since_app; repeat split; discriminate.
Qed.

(** X17: after a run of the interrupt handler whose transport calls
    succeeded, an immediate second run returns [IRQ_NONE], notifies
    nobody and writes nothing. *)
Theorem handle_irq_second_poll_is_quiet (w : world) :
  ret_at w 0 = 0 -> ret_at w 1 = 0 ->
  let w1 := snd (PCF85363.pcf85363_rtc_handle_irq w) in
  let again := PCF85363.pcf85363_rtc_handle_irq w1 in
  fst again = PCF85363.IRQ_NONE
  /\ register_writes (calls_since w1 (snd again)) = []
  /\ filter is_rtc_event (calls_since w1 (snd again)) = []
  /\ regs (snd again) = regs w1.
Proof.
  intros H0 H1. cbv zeta. rewrite (handle_irq_run w). cbv zeta.
  rewrite (nonzero_0 _ H0), (nonzero_0 _ H1).
  change 32 with (2 ^ 5). rewrite nonzero_land_bit, u8_testbit by lia.
  destruct (Z.testbit (regs w CTRL_FLAGS) 5) eqn:E5; cbn [snd].
  - rewrite handle_irq_run. cbv zeta. cbn [regs rets trace].
    change 32 with (2 ^ 5). rewrite nonzero_land_bit, u8_testbit by lia.
    rewrite upd_same, clear_bit_testbit by lia. cbn [andb negb Z.eqb].
    rewrite andb_false_r.
    match goal with
    | |- context [nonzero (ret_at ?x 0)] => destruct (nonzero (ret_at x 0))
    end; cbn [fst snd regs]; rewrite calls_since_app; repeat split.
  - rewrite handle_irq_run. cbv zeta. cbn [regs rets trace].
    change 32 with (2 ^ 5). rewrite nonzero_land_bit, u8_testbit, E5 by lia.
    match goal with
    | |- context [nonzero (ret_at ?x 0)] => destruct (nonzero (ret_at x 0))
    end; cbn [fst snd regs]; rewrite calls_since_app; repeat split.
Qed.

Lemma handle_irq_second_poll_is_quiet_witness :
  fst (PCF85363.pcf85363_rtc_handle_irq
         (snd (PCF85363.pcf85363_rtc_handle_irq (boot (fun _ => 0xff) []))))
  = PCF85363.IRQ_NONE.
Proof.
  exact (proj1 (handle_irq_second_poll_is_quiet (boot (fun _ => 0xff) [])
                  eq_refl eq_refl)).
Defined.



(** X18: when both transactions succeed and the caller's buffer holds at
    least [bytes] bytes, an NVRAM read of [bytes] bytes at an offset
    returns the bytes (as 8-bit values) that an NVRAM write put there. *)
Theorem nvram_read_returns_what_was_written
        (offset bytes : Z) (val : list Z) (w : world) :
  ret_at w 0 = 0 -> ret_at w 1 = 0 ->
  (Z.to_nat bytes <= List.length val)%nat ->
  let w1 := snd (PCF85363.pcf85363_nvram_write offset val bytes w) in
  fst (PCF85363.pcf85363_nvram_read offset bytes w1)
  = (0, map u8 (firstn (Z.to_nat bytes) val)).
Proof.
  intros H0 H1 Hlen. cbv zeta.
  unfold PCF85363.pcf85363_nvram_write, PCF85363.pcf85363_nvram_read.
  step. rewrite (nonzero_0 _ H0), (nonzero_0 _ H1), H1. cbn [fst].
  f_equal.
  rewrite <- (firstn_length_le val Hlen) at 1.
  apply fetch_store_exact.
Qed.

Lemma nvram_read_returns_what_was_written_witness :
  fst (PCF85363.pcf85363_nvram_read 3 2
         (snd (PCF85363.pcf85363_nvram_write 3 [0x1ff; 7; 9] 2
                 (boot (fun _ => 0) []))))
  = (0, [0xff; 7]).
Proof.
  apply (nvram_read_returns_what_was_written 3 2 [0x1ff; 7; 9]
           (boot (fun _ => 0) []) eq_refl eq_refl).
  simpl. lia.
Defined.

(** X19: an NVRAM write changes no register outside the range it
    addresses, [CTRL_RAM + offset] up to the number of bytes sent, and an
    NVRAM read changes no register at all. *)
Theorem nvram_write_frame (offset bytes : Z) (val : list Z) (w : world) (reg : Z) :
  let base := u32 (CTRL_RAM + offset) in
  reg < base \/ base + Z.of_nat (Nat.min (Z.to_nat bytes) (List.length val)) <= reg ->
  regs (snd (PCF85363.pcf85363_nvram_write offset val bytes w)) reg = regs w reg
  /\ regs (snd (PCF85363.pcf85363_nvram_read offset bytes w)) = regs w.
Proof.
  cbv zeta. intros Hreg.
  unfold PCF85363.pcf85363_nvram_write, PCF85363.pcf85363_nvram_read.
  step. split; [|reflexivity].
  destruct (nonzero (ret_at w 0)); [reflexivity|].
  destruct Hreg as [Hlo|Hhi].
  - apply store_below. exact Hlo.
  - apply store_above. rewrite length_firstn. exact Hhi.
Qed.

Lemma nvram_write_frame_witness :
  regs (snd (PCF85363.pcf85363_nvram_write 0 [1; 2; 3] 3 (boot (fun _ => 0x55) [])))
       CTRL_STOP_EN = 0x55.
Proof.
  refine (proj1 (nvram_write_frame 0 3 [1; 2; 3] (boot (fun _ => 0x55) [])
                   CTRL_STOP_EN _)).
  left. vm_compute. reflexivity.
Defined.

(** X20: for an offset below 2^32 - 0x40, where the register address
    does not wrap, an NVRAM write never changes a register below
    [CTRL_RAM]: the clock, alarm and control registers are out of its
    reach. *)
Theorem nvram_write_keeps_clock_registers
        (offset bytes : Z) (val : list Z) (w : world) (reg : Z) :
  0 <= offset < 4294967296 - CTRL_RAM ->
  reg < CTRL_RAM ->
  regs (snd (PCF85363.pcf85363_nvram_write offset val bytes w)) reg = regs w reg.
Proof.
  intros Hoff Hreg.
  unfold PCF85363.pcf85363_nvram_write. step.
  destruct (nonzero (ret_at w 0)); [reflexivity|].
  apply store_below. unfold CTRL_RAM in *. rewrite u32_small by lia. lia.
Qed.

Lemma nvram_write_keeps_clock_registers_witness :
  regs (snd (PCF85363.pcf85363_nvram_write 0x3f [1; 2; 3] 3
               (boot (fun _ => 0x55) []))) DT_SECS = 0x55.
Proof.
  apply (nvram_write_keeps_clock_registers 0x3f 3 [1; 2; 3]
           (boot (fun _ => 0x55) []) DT_SECS);
    unfold CTRL_RAM, DT_SECS; lia.
Defined.

(** The offset is added in [unsigned int]: at the top of the range the
    register address wraps to the clock registers. *)
Example nvram_offset_wraps :
  regs (snd (PCF85363.pcf85363_nvram_write (4294967296 - 0x40) [0x99] 1
               (boot (fun _ => 0) []))) DT_100THS = 0x99.
Proof. vm_compute. reflexivity. Qed.

(** X21: the pcf85363 [probe] never creates the regmap; the pcf85263
    [probe] creates it after the allocation and registers the RTC device
    only when that succeeded.  Both return -ENODEV without I2C
    functionality, -ENOMEM without memory, and otherwise the first error
    of the steps that remain (0 when there is none). *)
Theorem probe_regmap_before_registration (env : probe_env) :
  let p363 := PCF85363.pcf85363_probe env in
  let p263 := PCF85263.pcf85263_probe env in
  let ok := functionality env && kzalloc_ok env in
  existsb is_regmap_init (snd p363) = false
  /\ fst p363 = (if negb (functionality env) then - ENODEV
                 else if negb (kzalloc_ok env) then - ENOMEM
                 else register_err env)
  /\ fst p263 = (if negb (functionality env) then - ENODEV
                 else if negb (kzalloc_ok env) then - ENOMEM
                 else if nonzero (regmap_err env) then regmap_err env
                 else register_err env)
  /\ filter (fun c => is_regmap_init c || is_registration c) (snd p263)
     = (if ok then
          Devm_regmap_init_i2c
          :: (if nonzero (regmap_err env) then []
              else [Devm_rtc_device_register "pcf85263" PCF85263.rtc_ops])
        else []).
Proof.
  cbv zeta. unfold PCF85363.pcf85363_probe, PCF85263.pcf85263_probe.
  destruct (functionality env); cbn [negb andb]; [|repeat split].
  destruct (kzalloc_ok env); cbn [negb andb]; [|repeat split].
  destruct (nonzero (regmap_err env)); repeat split.
Qed.
